(** * Code-search pipeline: chunking, batching, vector store, retrieval

    A shallow embedding of the indexing pipeline of the repository
    ([src/parser.py], [src/indexing.py], [src/github_service.py],
    [src/types.py]) and the properties its specification states about it.

    Conventions.
    - A Python [str] is a [string]; characters are bytes, and [lower] only
      touches the ASCII letters.
    - A Python [int] is a [Z]; [len] is [Z.of_nat (length _)].
    - A Python [dict] with string keys is a [gmap string _].
    - A call that may raise returns an [outcome].
    - External collaborators are fields of a class: the llama-index
      splitter is [Splitter], the embedding function and the LanceDB table
      are [CodebaseIndex.Collaborators].  The development holds for every
      implementation of them; [Demo] has small ones to run the model on. *)

From Stdlib Require Import ZArith List Ascii String Bool Lia Sorted.
From Stdlib Require Import DecimalString DecimalPos DecimalZ.
From stdpp Require Import base option list gmap strings.

Local Open Scope Z_scope.

(** ** Results of calls that may raise *)

Definition exn := string.

Inductive outcome (A : Type) : Type :=
| Ok (a : A)
| Raise (e : exn).
Arguments Ok {A} a.
Arguments Raise {A} e.

(** ** Python string operations used by the sources *)

Module PyStr.

Definition eqc (a b : ascii) : bool := Ascii.eqb a b.

(** [s.startswith(p)] *)
Fixpoint startswith (p s : string) : bool :=
  match p, s with
  | EmptyString, _ => true
  | String a p', String b s' => eqc a b && startswith p' s'
  | String _ _, EmptyString => false
  end.

(** [needle in hay] *)
Fixpoint contains (needle hay : string) : bool :=
  startswith needle hay ||
  match hay with
  | EmptyString => false
  | String _ hay' => contains needle hay'
  end.

(** [s.endswith(p)] *)
Definition endswith (p s : string) : bool :=
  startswith (String.rev p) (String.rev s).

(** [s.replace(old, new)] for a non-empty [old]: occurrences are replaced
    from left to right and do not overlap.  [skip] counts the characters of
    a match still to be dropped. *)
Fixpoint replace_go (old new : string) (skip : nat) (s : string) : string :=
  match s with
  | EmptyString => EmptyString
  | String c s' =>
      match skip with
      | S k => replace_go old new k s'
      | O =>
          if startswith old s
          then new +:+ replace_go old new (Nat.pred (String.length old)) s'
          else String c (replace_go old new O s')
      end
  end.

Definition replace (old new s : string) : string := replace_go old new O s.

(** [s.split(sep)] for a one-character separator: never the empty list. *)
Fixpoint split (sep : ascii) (s : string) : list string :=
  match s with
  | EmptyString => [EmptyString]
  | String c s' =>
      if eqc c sep then EmptyString :: split sep s'
      else match split sep s' with
           | x :: xs => String c x :: xs
           | [] => [String c EmptyString]
           end
  end.

(** [s.lower()] on ASCII letters. *)
Definition lower_char (c : ascii) : ascii :=
  let n := nat_of_ascii c in
  if (Nat.leb 65 n && Nat.leb n 90)%bool then ascii_of_nat (n + 32) else c.

Fixpoint lower (s : string) : string :=
  match s with
  | EmptyString => EmptyString
  | String c s' => String (lower_char c) (lower s')
  end.

(** The characters [str.splitlines] treats as line boundaries, among the
    code points a byte can hold: LF, VT, FF, CR, FS, GS, RS, NEL. *)
Definition is_linebreak (c : ascii) : bool :=
  let n := nat_of_ascii c in
  (Nat.eqb n 10 || Nat.eqb n 11 || Nat.eqb n 12 || Nat.eqb n 13 ||
   Nat.eqb n 28 || Nat.eqb n 29 || Nat.eqb n 30 || Nat.eqb n 133)%bool.

Definition is_cr (c : ascii) : bool := Nat.eqb (nat_of_ascii c) 13.
Definition is_lf (c : ascii) : bool := Nat.eqb (nat_of_ascii c) 10.

(** [s.splitlines()]: CR LF counts as one boundary, and a final boundary
    does not open an empty last line.  [cur] is the line being read,
    reversed. *)
Fixpoint splitlines_go (cur : string) (s : string) : list string :=
  match s with
  | EmptyString =>
      match cur with
      | EmptyString => []
      | _ => [String.rev cur]
      end
  | String c s' =>
      if is_cr c then
        match s' with
        | String d s'' =>
            if is_lf d then String.rev cur :: splitlines_go EmptyString s''
            else String.rev cur :: splitlines_go EmptyString s'
        | EmptyString => [String.rev cur]
        end
      else if is_linebreak c then String.rev cur :: splitlines_go EmptyString s'
      else splitlines_go (String c cur) s'
  end.

Definition splitlines (s : string) : list string := splitlines_go EmptyString s.

(** [c in s] for a character *)
Fixpoint has_char (c : ascii) (s : string) : bool :=
match s with
| EmptyString => false
| String a s' => eqc a c || has_char c s'
end.

(** [len(x)] of a list *)
Definition len {A} (l : list A) : Z := Z.of_nat (length l).

(** [str(n)] for an integer *)
Definition str_of_int (n : Z) : string := NilZero.string_of_int (Z.to_int n).

(** [sep.join(parts)] *)
Fixpoint join (sep : string) (parts : list string) : string :=
  match parts with
  | [] => EmptyString
  | [x] => x
  | x :: rest => x +:+ sep +:+ join sep rest
  end.

(** [Path(p).name] on a POSIX path: the last component that is neither
    empty nor a single dot. *)
Definition path_name (p : string) : string :=
  List.last (List.filter (fun c => negb (String.eqb c "" || String.eqb c "."))
                         (split "/"%char p)) EmptyString.

(** Position of the last dot of [s], counted from the left ([s.rfind('.')]);
    [None] when there is none. *)
Fixpoint rfind_dot (s : string) : option nat :=
  match s with
  | EmptyString => None
  | String c s' =>
      match rfind_dot s' with
      | Some i => Some (S i)
      | None => if eqc c "."%char then Some O else None
      end
  end.

(** [Path(p).suffix]: the part of the name from its last dot on, when
    that dot is neither the first nor the last character. *)
Definition path_suffix (p : string) : string :=
  let name := path_name p in
  match rfind_dot name with
  | Some i =>
      if (Nat.ltb 0 i && Nat.ltb i (Nat.pred (String.length name)))%bool
      then String.substring i (String.length name - i) name
      else EmptyString
  | None => EmptyString
  end.

End PyStr.

(** ** Regular-expression substitutions and [strip], as the sources use them *)

Module PyText.

Definition in_range (lo hi : nat) (c : ascii) : bool :=
  let n := nat_of_ascii c in (Nat.leb lo n && Nat.leb n hi)%bool.

(** [A-Z], [a-z], [0-9] *)
Definition is_upper (c : ascii) : bool := in_range 65 90 c.
Definition is_lower (c : ascii) : bool := in_range 97 122 c.
Definition is_digit (c : ascii) : bool := in_range 48 57 c.
Definition is_alnum (c : ascii) : bool := is_upper c || is_lower c || is_digit c.

(** The characters [str.strip()] removes, among those a byte can hold. *)
Definition is_space (c : ascii) : bool :=
  let n := nat_of_ascii c in
  (in_range 9 13 c || in_range 28 32 c || Nat.eqb n 133 || Nat.eqb n 160)%bool.

(** [re.sub('[^...]', repl, s)] for a one-character [repl]: every character
    outside the class [ok] becomes [repl]. *)
Fixpoint replace_outside (ok : ascii -> bool) (repl : ascii) (s : string) : string :=
  match s with
  | EmptyString => EmptyString
  | String c s' => String (if ok c then c else repl) (replace_outside ok repl s')
  end.

(** [re.sub('[^...]', '', s)]: the characters outside the class are removed. *)
Fixpoint keep_chars (ok : ascii -> bool) (s : string) : string :=
  match s with
  | EmptyString => EmptyString
  | String c s' => if ok c then String c (keep_chars ok s') else keep_chars ok s'
  end.

(** [re.sub('c+', 'c', s)]: every run of [c] shrinks to one [c]. *)
Fixpoint squeeze (c : ascii) (s : string) : string :=
  match s with
  | EmptyString => EmptyString
  | String a s' =>
      if PyStr.eqc a c then
        match s' with
        | String b _ => if PyStr.eqc b c then squeeze c s' else String a (squeeze c s')
        | EmptyString => String a EmptyString
        end
      else String a (squeeze c s')
  end.

(** [s.lstrip(chars)], [s.rstrip(chars)] and [s.strip(chars)], the set of
    characters given by [drop]. *)
Fixpoint lstrip (drop : ascii -> bool) (s : string) : string :=
  match s with
  | EmptyString => EmptyString
  | String c s' => if drop c then lstrip drop s' else s
  end.

Fixpoint rstrip (drop : ascii -> bool) (s : string) : string :=
  match s with
  | EmptyString => EmptyString
  | String c s' =>
      match rstrip drop s' with
      | EmptyString => if drop c then EmptyString else String c EmptyString
      | r => String c r
      end
  end.

Definition strip (drop : ascii -> bool) (s : string) : string :=
  rstrip drop (lstrip drop s).

(** The last character of [s], if any. *)
Fixpoint last_char (s : string) : option ascii :=
  match s with
  | EmptyString => None
  | String c s' =>
      match last_char s' with
      | Some l => Some l
      | None => Some c
      end
  end.

(** Whether no two neighbours in [s] are both [c]. *)
Fixpoint no_pair (c : ascii) (s : string) : bool :=
  match s with
  | EmptyString => true
  | String a s' =>
      match s' with
      | String b _ => negb (PyStr.eqc a c && PyStr.eqc b c)
      | EmptyString => true
      end && no_pair c s'
  end.

(** Whether every character of [s] is in the class [ok]. *)
Fixpoint all_chars (ok : ascii -> bool) (s : string) : bool :=
  match s with
  | EmptyString => true
  | String c s' => ok c && all_chars ok s'
  end.

End PyText.

(** ** Data model ([src/types.py]) *)

(** A position is the dict [{'line': _, 'character': _}]. *)
Record Position := { line : Z; character : Z }.

Record Range := { start : Position; stop : Position }.

(** [Chunk]: [range], [repo] and [branch] default to [None], [""], [""]. *)
Record Chunk := {
  filepath : string;
  content : string;
  range : option Range;
  repo : string;
  branch : string
}.

(** Truthiness of an optional string: [None] and [""] are false. *)
Definition truthy (s : option string) : bool :=
  match s with
  | Some (String _ _) => true
  | _ => false
  end.

(** ** The chunker ([src/parser.py]) *)

(** The llama-index splitter built by
    [CodeSplitter.from_defaults(language=lang, chunk_lines=40,
    chunk_lines_overlap=15, max_chars=1500)] and run on the content; building
    it or running it may raise. *)
Class Splitter := {
  split_text : string -> string -> outcome (list string)
}.

Module CodeParser.

Definition llama_lang_map : gmap string string :=
  list_to_map
    [ (".ts", "typescript"); (".tsx", "typescript");
      (".js", "javascript"); (".jsx", "javascript");
      (".py", "python"); (".rb", "ruby"); (".rs", "rust"); (".go", "go");
      (".java", "java"); (".cs", "csharp"); (".cpp", "cpp"); (".hpp", "cpp");
      (".c", "c"); (".h", "c"); (".php", "php"); (".swift", "swift") ].

Definition get_llama_language_for_file (filepath : string) : option string :=
  let ext := PyStr.lower (PyStr.path_suffix filepath) in
  llama_lang_map !! ext.

(** [Chunk(filepath=filepath, content=content)] *)
Definition whole_file (filepath content : string) : Chunk :=
  {| filepath := filepath; content := content; range := None;
     repo := ""; branch := "" |}.

Definition chunk_lines_overlap : Z := 15.

(** The loop of [chunk_code] over [text_chunks]; [nlines] is
    [len(content.splitlines())] and [current_line] the loop variable. *)
Fixpoint place_chunks (filepath : string) (nlines current_line : Z)
         (text_chunks : list string) : list Chunk :=
  match text_chunks with
  | [] => []
  | text_chunk :: rest =>
      let chunk_lines := PyStr.splitlines text_chunk in
      let chunk_start := current_line in
      let chunk_end := Z.min (chunk_start + PyStr.len chunk_lines) nlines in
      {| filepath := filepath;
         content := text_chunk;
         range := Some {| start := {| line := chunk_start; character := 0 |};
                          stop := {| line := chunk_end - 1; character := 0 |} |};
         repo := ""; branch := "" |}
      :: place_chunks filepath nlines
           (chunk_start + Z.max 1 (PyStr.len chunk_lines - chunk_lines_overlap))
           rest
  end.

(** [len(text_chunk.splitlines())], the line count of a piece. *)
Definition line_count (piece : string) : Z := PyStr.len (PyStr.splitlines piece).

(** The chunk of one iteration, from its piece and its [chunk_start]. *)
Definition placed (filepath piece : string) (nlines s : Z) : Chunk :=
  {| filepath := filepath; content := piece;
     range := Some {| start := {| line := s; character := 0 |};
                      stop := {| line := Z.min (s + line_count piece) nlines - 1;
                                 character := 0 |} |};
     repo := ""; branch := "" |}.

(** The pair (start line, end line) of a chunk that carries a range. *)
Definition line_span (c : Chunk) : option (Z * Z) :=
  match range c with
  | Some r => Some (line (start r), line (stop r))
  | None => None
  end.

Definition chunk_code `{Splitter} (filepath content : string) : list Chunk :=
  let lang := get_llama_language_for_file filepath in
  if negb (truthy lang) then [whole_file filepath content]
  else
    match split_text (default "" lang) content with
    | Raise _ => [whole_file filepath content]
    | Ok [] => [whole_file filepath content]
    | Ok text_chunks =>
        place_chunks filepath (PyStr.len (PyStr.splitlines content)) 0 text_chunks
    end.

(** *** The tree-sitter side of the parser *)



(** A capture of the tags query: the node's text and points, and the tag. *)
Record Node := {
  text : string;
  start_point : Z * Z;
  end_point : Z * Z
}.

Record Symbol := {
  symbol_type : string;
  symbol_name : string;
  symbol_range : Range
}.

(** [xs[1]] *)
Definition second (xs : list string) : outcome string :=
  match xs with
  | _ :: x :: _ => Ok x
  | _ => Raise "IndexError"
  end.

(** The loop of [get_symbols] over the captures. *)
Fixpoint symbols_of_captures (captures : list (Node * string)) : outcome (list Symbol) :=
  match captures with
  | [] => Ok []
  | (node, tag) :: rest =>
      if PyStr.endswith ".definition" tag then
        match second (PyStr.split "." tag) with
        | Raise e => Raise e
        | Ok type =>
            match symbols_of_captures rest with
            | Raise e => Raise e
            | Ok symbols =>
                Ok ({| symbol_type := type;
                       symbol_name := text node;
                       symbol_range :=
                         {| start := {| line := fst (start_point node);
                                        character := snd (start_point node) |};
                            stop := {| line := fst (end_point node);
                                       character := snd (end_point node) |} |} |}
                      :: symbols)
            end
        end
      else symbols_of_captures rest
  end.

End CodeParser.

(** ** The pattern matcher of [list_files] ([src/github_service.py]) *)

Module GitHubService.

Definition default_include_patterns : list string :=
  ["**/*.ts"; "**/*.tsx"; "**/*.js"; "**/*.jsx"; "**/*.py"].

Definition default_exclude_patterns : list string :=
  ["**/node_modules/**"; "**/dist/**"; "**/.git/**"].

(** [pattern.split('.')[-1]] *)
Definition last_dot_part (pattern : string) : string :=
  List.last (PyStr.split "."%char pattern) EmptyString.

Definition should_include (file_path : string) (include_patterns : list string) : bool :=
  existsb (fun pattern =>
             (PyStr.startswith "**/*." pattern
                && PyStr.endswith (last_dot_part pattern) file_path)
             || (PyStr.startswith "*." pattern
                   && PyStr.endswith (last_dot_part pattern) file_path)
             || PyStr.endswith pattern file_path)
          include_patterns.

(** [pattern.replace("**/", "").replace("/**", "")] *)
Definition strip_globs (pattern : string) : string :=
  PyStr.replace "/**" "" (PyStr.replace "**/" "" pattern).

Definition should_exclude (file_path : string) (exclude_patterns : list string) : bool :=
  existsb (fun pattern =>
             PyStr.contains ("/" +:+ strip_globs pattern +:+ "/")
                            ("/" +:+ file_path +:+ "/"))
          exclude_patterns.

(** The test that decides whether [list_files] yields a file. *)
Definition yields (file_path : string) (include_patterns exclude_patterns : list string) : bool :=
  should_include file_path include_patterns
    && negb (should_exclude file_path exclude_patterns).

(** *** The discovery walker *)

(** What [repo.get_contents] returns for a directory, as the walk meets it:
    a file with its path, or a sub-directory with its path and the outcome of
    listing it in turn. *)
#[warnings="-register-all"]
Inductive Entry :=
| FileEntry (path : string)
| DirEntry (path : string) (listing : outcome (list Entry)).

(** The loop of [list_files] over one entry of [contents], the patterns
    being resolved. *)
Fixpoint walk (include_patterns exclude_patterns : list string) (e : Entry) : list string :=
  match e with
  | FileEntry file_path =>
      if yields file_path include_patterns exclude_patterns then [file_path] else []
  | DirEntry _ (Ok contents) =>
      List.flat_map (walk include_patterns exclude_patterns) contents
  | DirEntry _ (Raise _) => []
  end.

(** [list_files]: the paths it yields, in order.  [listing] is the outcome of
    [repo.get_contents(path, ref=ref)] for the starting directory. *)
Definition list_files (listing : outcome (list Entry))
           (include_patterns exclude_patterns : option (list string)) : list string :=
  let include_patterns := default default_include_patterns include_patterns in
  let exclude_patterns := default default_exclude_patterns exclude_patterns in
  match listing with
  | Ok contents => List.flat_map (walk include_patterns exclude_patterns) contents
  | Raise _ => []
  end.

(** The file paths the walk reaches: depth first, the directories whose
    listing fails left out. *)
Fixpoint reachable (e : Entry) : list string :=
  match e with
  | FileEntry file_path => [file_path]
  | DirEntry _ (Ok contents) => List.flat_map reachable contents
  | DirEntry _ (Raise _) => []
  end.

(** The file paths a walk from [listing] reaches. *)
Definition reachable_from (listing : outcome (list Entry)) : list string :=
  match listing with
  | Ok contents => List.flat_map reachable contents
  | Raise _ => []
  end.

(** *** Branch names *)

(** [[^a-zA-Z0-9-]] is the complement of this class. *)
Definition branch_char (c : ascii) : bool :=
  PyText.is_alnum c || PyStr.eqc c "-".

(** [_sanitize_branch_name] *)
Definition sanitize_branch_name (name : string) : string :=
  let sanitized := PyText.replace_outside branch_char "-" (PyStr.lower name) in
  let sanitized := PyText.squeeze "-" sanitized in
  PyText.strip (fun c => PyStr.eqc c "-") sanitized.
(** [a-z0-9-] *)
Definition slug_char (c : ascii) : bool := PyText.is_lower c || PyText.is_digit c || PyStr.eqc c "-".

Definition dash (c : ascii) : bool := PyStr.eqc c "-".

End GitHubService.

(** ** The vector store and the retrieval engine ([src/indexing.py]) *)

Module CodebaseIndex.

Section Model.

(** An embedding vector: a list of floats, opaque to the pipeline. *)
Context {Vec : Type}.

(** A row of the table [chunks], with the columns of its schema. *)
Record Row := {
  row_id : string;
  row_content : string;
  row_embedding : Vec;
  row_filepath : string;
  row_start_line : Z;
  row_end_line : Z;
  row_language : string;
  row_repo : string;
  row_branch : string
}.

(** The two [create_index] calls of [store]: the one with only the column
    and the metric, which the code labels HNSW, and the IVF_PQ one. *)
Inductive IndexRequest :=
| SmallIndex
| PartitionedIndex (num_partitions num_sub_vectors num_bits : Z).

Record Table := {
  table_rows : list Row;
  table_index : option IndexRequest
}.

(** What the calls do to the outside world, in order. *)
Inductive Event :=
| EvOpenTable
| EvCreateTable
| EvEmbed (texts : list string)
| EvBatchError (e : exn)
| EvAddRows (n : Z)
| EvAddError (e : exn)
| EvCreateIndex (req : IndexRequest)
| EvIndexError (e : exn)
| EvSearch (filter_str : option string) (limit : Z)
| EvDropTable.

(** The database at [db_path]: the table named [chunks] when it exists,
    and the trace of effects so far. *)
Record Db := {
  chunks_table : option Table;
  trace : list Event
}.

(** The embedding function and the LanceDB operations whose result the
    pipeline does not control. *)
Class Collaborators := {
  embeddings_provider : list string -> outcome (list Vec);
  (** [table.add(rows)] accepts the rows or raises (schema mismatch) *)
  table_add : list Row -> outcome unit;
  (** [table.create_index(...)] on the given rows succeeds or raises *)
  create_index : IndexRequest -> list Row -> outcome unit;
  (** [table.search(q).where(f).select(..).limit(n).to_pandas()] *)
  search : list Row -> Vec -> option string -> Z -> outcome (list Row);
  (** whether the value [db.drop_table] returns can be awaited *)
  drop_table_awaitable : bool
}.

Context `{Collaborators}.

Definition emit (evs : list Event) (db : Db) : Db :=
  {| chunks_table := chunks_table db; trace := trace db ++ evs |}.

Definition set_table (t : Table) (db : Db) : Db :=
  {| chunks_table := Some t; trace := trace db |}.

Definition empty_table : Table := {| table_rows := []; table_index := None |}.

Definition get_table (db : Db) : Db * Table :=
  match chunks_table db with
  | Some t => (emit [EvOpenTable] db, t)
  | None => (emit [EvCreateTable] (set_table empty_table db), empty_table)
  end.

Definition language_map : gmap string string :=
  list_to_map
    [ (".ts", "typescript"); (".tsx", "typescript");
      (".js", "javascript"); (".jsx", "javascript");
      (".py", "python"); (".rb", "ruby"); (".rs", "rust"); (".go", "go");
      (".java", "java"); (".cs", "c_sharp"); (".cpp", "cpp"); (".c", "c");
      (".php", "php"); (".el", "elisp"); (".ex", "elixir"); (".elm", "elm");
      (".ml", "ocaml"); (".ql", "ql"); (".swift", "swift") ].

Definition get_language (filepath : string) : string :=
  let ext := PyStr.lower (PyStr.path_suffix filepath) in
  default "unknown" (language_map !! ext).

(** The body of the inner loop of [store]: the row of one chunk. *)
Definition row_of (chunk : Chunk) (embedding : Vec) : Row :=
  let start_line := match range chunk with Some r => line (start r) | None => 0 end in
  let end_line := match range chunk with Some r => line (stop r) | None => 0 end in
  {| row_id := filepath chunk +:+ ":" +:+ PyStr.str_of_int start_line;
     row_filepath := filepath chunk;
     row_content := content chunk;
     row_embedding := embedding;
     row_start_line := start_line;
     row_end_line := end_line;
     row_language := get_language (filepath chunk);
     row_repo := repo chunk;
     row_branch := branch chunk |}.

(** [zip(batch, embeddings)]: stops at the shorter of the two. *)
Fixpoint zip_rows (batch : list Chunk) (embeddings : list Vec) : list Row :=
  match batch, embeddings with
  | chunk :: batch', embedding :: embeddings' =>
      row_of chunk embedding :: zip_rows batch' embeddings'
  | _, _ => []
  end.

Definition batch_size : nat := 100.

(** [range(0, len(chunks), batch_size)] *)
Definition batch_starts (n : nat) : list nat :=
  List.map (fun k => (k * batch_size)%nat)
           (List.seq 0 ((n + batch_size - 1) / batch_size)%nat).

(** The slices [chunks[i:i + batch_size]] the loop visits. *)
Definition batches (chunks : list Chunk) : list (list Chunk) :=
  List.map (fun i => take batch_size (drop i chunks))
           (batch_starts (length chunks)).

(** One iteration of the batch loop: the rows it appends to [all_rows]
    and what it does; a failing batch is logged and skipped. *)
Definition embed_batch (batch : list Chunk) : list Row * list Event :=
  let texts := List.map content batch in
  match embeddings_provider texts with
  | Ok embeddings => (zip_rows batch embeddings, [EvEmbed texts])
  | Raise e => ([], [EvEmbed texts; EvBatchError e])
  end.

Fixpoint embed_batches (bs : list (list Chunk)) : list Row * list Event :=
  match bs with
  | [] => ([], [])
  | batch :: bs' =>
      let '(rows, evs) := embed_batch batch in
      let '(rows', evs') := embed_batches bs' in
      (rows ++ rows', evs ++ evs')
  end.

(** The index [store] asks for, from [len(all_rows)]. *)
Definition choose_index (n : Z) : IndexRequest :=
  if n <? 256 then SmallIndex
  else PartitionedIndex (Z.min (n / 20) 256) 96 8.

Definition store (db : Db) (chunks : list Chunk) : Db * outcome unit :=
  match chunks with
  | [] => (db, Ok tt)
  | _ :: _ =>
      let '(db1, table) := get_table db in
      let '(all_rows, evs) := embed_batches (batches chunks) in
      let db2 := emit evs db1 in
      match all_rows with
      | [] => (db2, Ok tt)
      | _ :: _ =>
          match table_add all_rows with
          | Raise e => (emit [EvAddError e] db2, Raise e)
          | Ok _ =>
              let rows := table_rows table ++ all_rows in
              let req := choose_index (PyStr.len all_rows) in
              match create_index req rows with
              | Ok _ =>
                  (emit [EvAddRows (PyStr.len all_rows); EvCreateIndex req]
                        (set_table {| table_rows := rows; table_index := Some req |} db2),
                   Ok tt)
              | Raise e =>
                  (emit [EvAddRows (PyStr.len all_rows); EvCreateIndex req; EvIndexError e]
                        (set_table {| table_rows := rows; table_index := table_index table |} db2),
                   Ok tt)
              end
          end
      end
  end.

(** *** Retrieval *)

(** One entry of [filter_conditions], before it is rendered as text. *)
Inductive Condition :=
| RepoIs (repo_name : string)
| BranchIs (branch_name : string)
| PathUnder (directory : string)
| AnyPathUnder (directories : list string)
| LanguageIs (language : string).

Definition like_prefix (d : string) : string := "filepath LIKE '" +:+ d +:+ "%'".

Definition render (c : Condition) : string :=
  match c with
  | RepoIs r => "repo = '" +:+ r +:+ "'"
  | BranchIs b => "branch = '" +:+ b +:+ "'"
  | PathUnder d => like_prefix d
  | AnyPathUnder ds => "(" +:+ PyStr.join " OR " (List.map like_prefix ds) +:+ ")"
  | LanguageIs l => "language = '" +:+ l +:+ "'"
  end.

(** The directories the tags contribute: separators normalised, empty
    and root entries skipped. *)
Fixpoint dir_filters (tags : list (gmap string string)) : list string :=
  match tags with
  | [] => []
  | tag :: tags' =>
      let rest := dir_filters tags' in
      if truthy (tag !! "directory") then
        let dir_filter := PyStr.replace "\" "/" (default "" (tag !! "directory")) in
        if negb (String.eqb dir_filter "") && negb (String.eqb dir_filter "/")
        then dir_filter :: rest else rest
      else rest
  end.

Definition filter_conditions (tags : list (gmap string string))
           (filter_directory language : option string) : list Condition :=
  let repo_name := match tags with tag :: _ => tag !! "repo" | [] => None end in
  let branch_name := match tags with tag :: _ => tag !! "branch" | [] => None end in
  (if truthy repo_name then
     RepoIs (default "" repo_name)
       :: (if truthy branch_name then [BranchIs (default "" branch_name)] else [])
   else [])
  ++ (if truthy filter_directory then [PathUnder (default "" filter_directory)]
      else match dir_filters tags with
           | [] => []
           | ds => [AnyPathUnder ds]
           end)
  ++ (if truthy language then [LanguageIs (default "" language)] else []).

Definition filter_str (conds : list Condition) : option string :=
  match conds with
  | [] => None
  | _ => Some (PyStr.join " AND " (List.map render conds))
  end.

(** The chunk rebuilt from a result row; the character is always 0. *)
Definition chunk_of (row : Row) : Chunk :=
  {| filepath := row_filepath row;
     content := row_content row;
     range := Some {| start := {| line := row_start_line row; character := 0 |};
                      stop := {| line := row_end_line row; character := 0 |} |};
     repo := row_repo row;
     branch := row_branch row |}.

Definition retrieve (db : Db) (query : string) (n : Z)
           (tags : list (gmap string string))
           (filter_directory language : option string) : Db * outcome (list Chunk) :=
  let '(db1, table) := get_table db in
  let db2 := emit [EvEmbed [query]] db1 in
  match embeddings_provider [query] with
  | Raise e => (db2, Raise e)
  | Ok [] => (db2, Raise "IndexError")
  | Ok (query_embedding :: _) =>
      let f := filter_str (filter_conditions tags filter_directory language) in
      let db3 := emit [EvSearch f n] db2 in
      match search (table_rows table) query_embedding f n with
      | Raise e => (db3, Raise e)
      | Ok [] => (db3, Ok [])
      | Ok results => (db3, Ok (List.map chunk_of results))
      end
  end.

Definition clear (db : Db) : Db * outcome unit :=
  match chunks_table db with
  | Some _ =>
      ({| chunks_table := None; trace := trace db ++ [EvDropTable] |},
       if drop_table_awaitable then Ok tt else Raise "TypeError")
  | None => (db, Ok tt)
  end.

End Model.

Arguments Row : clear implicits.
Arguments Table : clear implicits.
Arguments Db : clear implicits.
Arguments Event : clear implicits.
Arguments Collaborators : clear implicits.

(** The rows a database holds: those of the table [chunks], none without it. *)
Definition existing_rows {Vec} (db : Db Vec) : list (Row Vec) :=
  match chunks_table db with
  | Some t => table_rows t
  | None => []
  end.

(** The text lists the embedding function was called with, in order. *)
Fixpoint embedded_texts (evs : list Event) : list (list string) :=
  match evs with
  | [] => []
  | EvEmbed texts :: evs' => texts :: embedded_texts evs'
  | _ :: evs' => embedded_texts evs'
  end.

End CodebaseIndex.

(** ** Paths named by the model ([src/code_generator.py]) *)

Module CodeGenerator.

(** [[^a-zA-Z0-9/._-]] is the complement of this class. *)
Definition path_char (c : ascii) : bool :=
  PyText.is_alnum c || PyStr.eqc c "/" || PyStr.eqc c "." || PyStr.eqc c "_"
  || PyStr.eqc c "-".

(** [_clean_file_path] *)
Definition clean_file_path (path : string) : string :=
  let cleaned := PyText.strip PyText.is_space
                   (PyText.strip (fun c => PyStr.eqc c "`") path) in
  let cleaned := PyStr.replace "\" "/" cleaned in
  PyText.keep_chars path_char cleaned.
(** [_clean_file_path] without its two [strip] calls. *)
Definition keep_path_chars (path : string) : string :=
  PyText.keep_chars path_char (PyStr.replace "\" "/" path).

(** [FileChangeWithType]; the field [content] is [snippet] here. *)
Record FileChangeWithType := {
  file : string;
  snippet : string;
  change_type : string;
  original_content : option string;
  insert_after_line : option Z
}.

(** The index at which the slices [lines[:k]] and [lines[k:]] cut a list of
    [n] elements: a negative [k] counts from the end, and the cut stays
    within the list. *)
Definition slice_point (k : Z) (n : nat) : nat :=
  if k <? 0 then Z.to_nat (Z.max 0 (Z.of_nat n + k)) else Nat.min (Z.to_nat k) n.

(** The content of the [FileChange] that [create_pr_from_description] makes
    of a generated change. *)
Definition applied_content (change : FileChangeWithType) : string :=
  if String.eqb (change_type change) "create" then snippet change
  else
    match original_content change, insert_after_line change with
    | Some (String _ _ as original), Some k =>
        if k =? 0 then snippet change
        else
          let lines := PyStr.splitlines original in
          let new_lines :=
            take (slice_point k (length lines)) lines
              ++ PyStr.splitlines (snippet change)
              ++ drop (slice_point k (length lines)) lines in
          PyStr.join (String "010"%char EmptyString) new_lines
    | _, _ => snippet change
    end.

End CodeGenerator.

(** ** Indexing a repository and searching it ([src/codebase.py]) *)

Module CodebaseUnderstanding.

(** The repository as GitHub serves it: the listing of its root at the ref
    being read, the content [get_file_content] returns for a path ([None]
    when it gives up), the owner's login, the name and the default branch. *)
Class Repository := {
  root_listing : outcome (list GitHubService.Entry);
  get_file_content : string -> option string;
  owner_login : string;
  repo_name : string;
  default_branch : string
}.

(** [ContextItem]; [uri] is the dict [{'type': _, 'value': _}]. *)
Record ContextItem := {
  name : string;
  description : string;
  item_content : string;
  uri_type : string;
  uri_value : string
}.

Section Model.

Context {Vec : Type} `{CodebaseIndex.Collaborators Vec} `{Splitter} `{Repository}.

(** [f"{self.repo.owner.login}/{self.repo.name}"] *)
Definition full_name : string := owner_login +:+ "/" +:+ repo_name.

Definition index_include_patterns : list string :=
  [ "**/*.ts"; "**/*.tsx"; "**/*.js"; "**/*.jsx"; "**/*.py"; "**/*.rb";
    "**/*.rs"; "**/*.go"; "**/*.java"; "**/*.cs"; "**/*.cpp"; "**/*.hpp";
    "**/*.c"; "**/*.h"; "**/*.php"; "**/*.el"; "**/*.ex"; "**/*.exs";
    "**/*.elm"; "**/*.ml"; "**/*.mli"; "**/*.ql" ].

Definition index_exclude_patterns : list string :=
  [ "**/node_modules/**"; "**/dist/**"; "**/.git/**"; "**/build/**";
    "**/target/**"; "**/__pycache__/**"; "**/*.min.js"; "**/*.min.css" ].

(** The assignments [chunk.repo = ...] and [chunk.branch = branch]. *)
Definition tag_chunk (branch_name : string) (chunk : Chunk) : Chunk :=
  {| filepath := filepath chunk; content := content chunk; range := range chunk;
     repo := full_name; branch := branch_name |}.

(** One turn of the file loop: the chunks a path adds.  A path whose content
    cannot be read raises inside the [try] and is skipped, and so is a path
    with an empty content. *)
Definition chunks_of_file (branch_name file_path : string) : list Chunk :=
  match get_file_content file_path with
  | Some (String _ _ as file_content) =>
      List.map (tag_chunk branch_name) (CodeParser.chunk_code file_path file_content)
  | _ => []
  end.

(** The paths [index_repository] processes. *)
Definition indexed_files (include_patterns exclude_patterns : option (list string))
  : list string :=
  GitHubService.list_files root_listing
    (Some (default index_include_patterns include_patterns))
    (Some (default index_exclude_patterns exclude_patterns)).

Definition index_repository (db : CodebaseIndex.Db Vec) (branch_name : option string)
           (include_patterns exclude_patterns : option (list string))
  : CodebaseIndex.Db Vec * outcome unit :=
  let branch_name := default default_branch branch_name in
  let chunks := List.flat_map (chunks_of_file branch_name)
                              (indexed_files include_patterns exclude_patterns) in
  match chunks with
  | [] => (db, Ok tt)
  | _ => CodebaseIndex.store db chunks
  end.

(** The context item of one retrieved chunk; reading the lines of a chunk
    without range raises. *)
Definition context_item (chunk : Chunk) : outcome ContextItem :=
  match range chunk with
  | None => Raise "AttributeError"
  | Some r =>
      Ok {| name := filepath chunk;
            description := "Code from " +:+ filepath chunk +:+ " (lines "
                           +:+ PyStr.str_of_int (line (start r)) +:+ "-"
                           +:+ PyStr.str_of_int (line (stop r)) +:+ ")";
            item_content := content chunk;
            uri_type := "file";
            uri_value := filepath chunk |}
  end.

Fixpoint context_items (chunks : list Chunk) : outcome (list ContextItem) :=
  match chunks with
  | [] => Ok []
  | chunk :: rest =>
      match context_item chunk with
      | Raise e => Raise e
      | Ok item =>
          match context_items rest with
          | Raise e => Raise e
          | Ok items => Ok (item :: items)
          end
      end
  end.

(** The one tag [search_similar_code] passes to [retrieve]. *)
Definition search_tags : list (gmap string string) :=
  [ {[ "directory" := ""; "branch" := default_branch; "repo" := full_name ]} ].

Definition search_similar_code (db : CodebaseIndex.Db Vec) (query : string) (n_results : Z)
           (filter_directory language : option string)
  : CodebaseIndex.Db Vec * outcome (list ContextItem) :=
  let '(db', found) :=
    CodebaseIndex.retrieve db query n_results search_tags filter_directory language in
  match found with
  | Raise e => (db', Raise e)
  | Ok chunks => (db', context_items chunks)
  end.

End Model.

End CodebaseUnderstanding.

(** ** Concrete collaborators, for running the model *)

(** A splitter that hands back a fixed list of pieces, whatever the file. *)
Definition fixed_splitter (pieces : list string) : Splitter :=
  {| split_text := fun _ _ => Ok pieces |}.

(** A splitter that turns every line of the file into a piece and fails on
    a file that starts with a NUL character. *)
Definition line_splitter : Splitter :=
  {| split_text := fun _ content =>
       if PyStr.startswith (String "000"%char EmptyString) content
       then Raise "cannot parse"
       else Ok (PyStr.splitlines content) |}.

Definition LF : string := String "010"%char EmptyString.

(** A toy embedding space: a text is embedded as its length, and two
    vectors are the closer the smaller their difference. *)
Module Demo.

Import CodebaseIndex.

Definition embed_one (text : string) : Z := Z.of_nat (String.length text).

Definition distance (q e : Z) : Z := Z.abs (q - e).

(** An embedding function that keeps length and order. *)
Definition faithful_provider (texts : list string) : outcome (list Z) :=
  Ok (List.map embed_one texts).


Fixpoint insert_by (q : Z) (r : Row Z) (l : list (Row Z)) : list (Row Z) :=
  match l with
  | [] => [r]
  | x :: l' =>
      if distance q (row_embedding r) <=? distance q (row_embedding x)
      then r :: l
      else x :: insert_by q r l'
  end.

Definition nearest_first (q : Z) (rows : list (Row Z)) : list (Row Z) :=
  List.fold_right (insert_by q) [] rows.

(** Exhaustive nearest-neighbour search; it reads no [where] clause and
    refuses a limit that is not positive. *)
Definition exact_search (rows : list (Row Z)) (q : Z) (f : option string) (n : Z)
  : outcome (list (Row Z)) :=
  if n <=? 0 then Raise "ValueError"
  else Ok (take (Z.to_nat n) (nearest_first q rows)).

Definition lance (provider : list string -> outcome (list Z)) : Collaborators Z :=
  {| embeddings_provider := provider;
     table_add := fun _ => Ok tt;
     create_index := fun _ _ => Ok tt;
     search := exact_search;
     drop_table_awaitable := false |}.

Definition chunk_at (path text : string) : Chunk :=
  {| filepath := path; content := text; range := None;
     repo := "octo/demo"; branch := "main" |}.

Definition old_row : Row Z :=
  {| row_id := "old.py:0"; row_content := "pass"; row_embedding := 4;
     row_filepath := "old.py"; row_start_line := 0; row_end_line := 0;
     row_language := "python"; row_repo := "octo/demo"; row_branch := "main" |}.

(** A database whose table already holds 300 rows. *)
Definition db300 : Db Z :=
  {| chunks_table := Some {| table_rows := List.repeat old_row 300;
                             table_index := None |};
     trace := [] |}.

Definition empty_db : Db Z := {| chunks_table := None; trace := [] |}.

Definition row_with (path : string) (e : Z) : Row Z :=
  {| row_id := path +:+ ":0"; row_content := path; row_embedding := e;
     row_filepath := path; row_start_line := 0; row_end_line := 0;
     row_language := "python"; row_repo := "octo/demo"; row_branch := "main" |}.

(** A database with three rows, at 1, 7 and 3 in the embedding space. *)
Definition db3 : Db Z :=
  {| chunks_table := Some {| table_rows := [row_with "a.py" 1; row_with "b.py" 7;
                                            row_with "c.py" 3];
                             table_index := None |};
     trace := [] |}.

(** [closer q a b] in the toy space. *)
Definition closer (q a b : Z) : Prop := distance q a <= distance q b.

(** An embedding function that returns no vector at all. *)
Definition silent_provider (texts : list string) : outcome (list Z) := Ok [].


(** A small remote tree: a dependency directory, two sources and a
    directory that cannot be listed. *)
Definition tree : outcome (list GitHubService.Entry) :=
  Ok [ GitHubService.DirEntry "node_modules"
         (Ok [GitHubService.FileEntry "node_modules/left-pad.js"]);
       GitHubService.FileEntry "main.py";
       GitHubService.DirEntry "private" (Raise "403");
       GitHubService.DirEntry "src"
         (Ok [GitHubService.FileEntry "src/app.min.js";
              GitHubService.FileEntry "src/notes.txt"]) ].

Definition repository : CodebaseUnderstanding.Repository :=
  {| CodebaseUnderstanding.root_listing := tree;
     CodebaseUnderstanding.get_file_content := fun p =>
       if String.eqb p "main.py" then Some "x = 1" else None;
     CodebaseUnderstanding.owner_login := "octo";
     CodebaseUnderstanding.repo_name := "demo";
     CodebaseUnderstanding.default_branch := "main" |}.

End Demo.

(** * Properties of the chunker *)

Section ChunkerFacts.

Context `{Splitter}.

Import CodeParser.

Lemma llama_language_truthy filepath lang :
  get_llama_language_for_file filepath = Some lang -> truthy (Some lang) = true.
Proof.
  unfold get_llama_language_for_file, llama_lang_map.
  intros Hl. apply elem_of_list_to_map_2 in Hl.
  repeat (apply elem_of_cons in Hl as [Hl | Hl]; [by inversion Hl |]).
  by apply elem_of_nil in Hl.
Qed.

Lemma place_chunks_length filepath nlines cur pieces :
  length (place_chunks filepath nlines cur pieces) = length pieces.
Proof.
  revert cur. induction pieces as [| p ps IH]; intros cur; simpl; [done |].
  by rewrite IH.
Qed.

Lemma place_chunks_lookup filepath nlines pieces :
  forall cur i p,
    pieces !! i = Some p ->
    exists s,
      place_chunks filepath nlines cur pieces !! i = Some (placed filepath p nlines s)
      /\ (i = 0%nat -> s = cur)
      /\ cur <= s
      /\ (forall c', place_chunks filepath nlines cur pieces !! S i = Some c' ->
            exists r', range c' = Some r'
                       /\ line (start r') = s + Z.max 1 (line_count p - 15)
                       /\ s < line (start r')).
Proof.
  induction pieces as [| q qs IH]; intros cur i p Hp; [done |].
  destruct i as [| i]; simpl in Hp.
  - inversion Hp; subst q. exists cur. simpl.
    split; [done |]. split; [done |]. split; [lia |].
    intros c' Hc'. destruct qs as [| q' qs']; [done |].
    simpl in Hc'. inversion Hc'; subst c'. simpl.
    eexists; split; [done |]. simpl. unfold line_count, chunk_lines_overlap. lia.
  - destruct (IH (cur + Z.max 1 (PyStr.len (PyStr.splitlines q) - chunk_lines_overlap)) i p Hp)
      as (s & Hs & _ & Hle & Hnext).
    exists s. simpl. split; [done |]. split; [done |]. split; [lia | done].
Qed.

End ChunkerFacts.

Section ChunkerClaims.

Context `{Splitter}.

Import CodeParser.

(** C3. When the file's language has a splitter and the splitter returns
    at least one piece, [chunk_code] returns one chunk per piece, in order;
    the first chunk starts at line 0; the chunk after piece [p] starts
    [max(1, lines(p) - 15)] lines after the chunk of [p], hence strictly
    later; and the end line of a chunk is [min(start + lines, file lines) - 1],
    that is [start + lines - 1] unless that runs past the last line of
    the file, whose number is [file lines - 1]. *)
Theorem chunk_code_line_ranges filepath content lang text_chunks :
  get_llama_language_for_file filepath = Some lang ->
  split_text lang content = Ok text_chunks ->
  text_chunks <> [] ->
  let nlines := PyStr.len (PyStr.splitlines content) in
  let chunks := chunk_code filepath content in
  length chunks = length text_chunks
  /\ forall i p,
      text_chunks !! i = Some p ->
      exists s,
        chunks !! i = Some (placed filepath p nlines s)
        /\ (i = 0%nat -> s = 0)
        /\ line_span (placed filepath p nlines s)
           = Some (s, Z.min (s + line_count p - 1) (nlines - 1))
        /\ forall c', chunks !! S i = Some c' ->
             exists r', range c' = Some r'
                        /\ line (start r') = s + Z.max 1 (line_count p - 15)
                        /\ s < line (start r').
Proof.
  intros Hlang Hsplit Hne nlines chunks.
  assert (Hc : chunks = place_chunks filepath nlines 0 text_chunks).
  { subst chunks. unfold chunk_code. rewrite Hlang.
    rewrite (llama_language_truthy _ _ Hlang). simpl. rewrite Hsplit.
    by destruct text_chunks. }
  rewrite Hc. split; [apply place_chunks_length |].
  intros i p Hp.
  destruct (place_chunks_lookup filepath nlines text_chunks 0 i p Hp)
    as (s & Hs & H0 & _ & Hnext).
  exists s. split; [done |]. split; [done |]. split; [| done].
  unfold line_span, placed; simpl. f_equal. f_equal. lia.
Qed.

(** C5. A file whose language has no splitter, a file on which the
    splitter raises, and a file for which it returns no piece each give
    exactly one chunk: the whole content, without a range. *)
Theorem chunk_code_whole_file_fallback filepath content :
  get_llama_language_for_file filepath = None
  \/ (exists lang e, get_llama_language_for_file filepath = Some lang
                     /\ split_text lang content = Raise e)
  \/ (exists lang, get_llama_language_for_file filepath = Some lang
                   /\ split_text lang content = Ok []) ->
  chunk_code filepath content
  = [ {| filepath := filepath; content := content; range := None;
         repo := ""; branch := "" |} ].
Proof.
  unfold chunk_code, whole_file.
  intros [Hnone | [(lang & e & Hl & Hr) | (lang & Hl & Hr)]].
  - by rewrite Hnone.
  - rewrite Hl. destruct (truthy (Some lang)); simpl; [by rewrite Hr | done].
  - rewrite Hl. destruct (truthy (Some lang)); simpl; [by rewrite Hr | done].
Qed.

End ChunkerClaims.

Lemma chunk_code_line_ranges_witness :
  CodeParser.get_llama_language_for_file "src/app.py" = Some "python"
  /\ @split_text line_splitter "python" ("x" +:+ LF +:+ "y") = Ok ["x"; "y"]
  /\ length (@CodeParser.chunk_code line_splitter "src/app.py" ("x" +:+ LF +:+ "y")) = 2%nat.
Proof.
  split; [reflexivity |]. split; [reflexivity |].
  destruct (@chunk_code_line_ranges line_splitter "src/app.py" ("x" +:+ LF +:+ "y")
              "python" ["x"; "y"]) as [Hlen _].
  - reflexivity.
  - reflexivity.
  - discriminate.
  - exact Hlen.
Defined.

Lemma chunk_code_whole_file_fallback_witness :
  CodeParser.get_llama_language_for_file "README.md" = None
  /\ @CodeParser.chunk_code line_splitter "README.md" "hello"
     = [ {| filepath := "README.md"; content := "hello"; range := None;
            repo := ""; branch := "" |} ].
Proof.
  split; [reflexivity |].
  apply (@chunk_code_whole_file_fallback line_splitter "README.md" "hello").
  left. reflexivity.
Defined.

(** A ten-line file that the splitter returns in one piece is one chunk over
    lines 0 to 9, and a file without a splitter is one chunk without range. *)
Example ten_line_file_is_one_chunk :
  let ten := "1" +:+ LF +:+ "2" +:+ LF +:+ "3" +:+ LF +:+ "4" +:+ LF +:+ "5" +:+ LF
             +:+ "6" +:+ LF +:+ "7" +:+ LF +:+ "8" +:+ LF +:+ "9" +:+ LF +:+ "10" in
  List.map CodeParser.line_span (@CodeParser.chunk_code (fixed_splitter [ten]) "a.py" ten)
  = [Some (0, 9)]
  /\ List.map CodeParser.line_span (@CodeParser.chunk_code (fixed_splitter [ten]) "b.txt" ten)
     = [None].
Proof. split; reflexivity. Qed.

(** * Properties of the vector store *)

Section StoreFacts.

Context {Vec : Type} `{CodebaseIndex.Collaborators Vec}.

Import CodebaseIndex.

Lemma choose_index_small n : n < 256 -> choose_index n = SmallIndex.
Proof. intros Hn. unfold choose_index. by rewrite (proj2 (Z.ltb_lt _ _) Hn). Qed.

Lemma choose_index_large n :
  256 <= n -> choose_index n = PartitionedIndex (Z.min (n / 20) 256) 96 8.
Proof. intros Hn. unfold choose_index. by rewrite (proj2 (Z.ltb_ge _ _) Hn). Qed.

Lemma choose_index_500 : choose_index 500 = PartitionedIndex 25 96 8.
Proof. reflexivity. Qed.

Lemma choose_index_10 : choose_index 10 = SmallIndex.
Proof. reflexivity. Qed.

Lemma zip_rows_length (batch : list Chunk) (vs : list Vec) :
  length (zip_rows batch vs) = Nat.min (length batch) (length vs).
Proof.
  revert vs. induction batch as [| c batch IH]; intros [| v vs]; simpl; try done.
  by rewrite IH.
Qed.


(** What [store] does once it has rows to write and the table takes them:
    the rows of this call are appended, and the index asked for depends on
    their number alone. *)
Lemma store_appends (db : Db Vec) c chunks (all_rows : list (Row Vec)) evs :
  embed_batches (batches (c :: chunks)) = (all_rows, evs) ->
  all_rows <> [] ->
  table_add all_rows = Ok tt ->
  let db' := fst (store db (c :: chunks)) in
  exists idx tr,
    chunks_table db'
    = Some {| table_rows := table_rows (snd (get_table db)) ++ all_rows;
              table_index := idx |}
    /\ trace db'
       = trace db ++ tr ++ [EvAddRows (PyStr.len all_rows);
                            EvCreateIndex (choose_index (PyStr.len all_rows))]
                  ++ match create_index (choose_index (PyStr.len all_rows))
                                        (table_rows (snd (get_table db)) ++ all_rows) with
                     | Ok _ => []
                     | Raise e => [EvIndexError e]
                     end.
Proof.
  intros Hb Hne Hadd db'. subst db'. unfold store.
  destruct (get_table db) as [db1 table] eqn:Hg. rewrite Hb.
  destruct all_rows as [| r rs]; [done |]. rewrite Hadd. simpl.
  assert (Ht : exists e1, trace db1 = trace db ++ [e1]).
  { unfold get_table in Hg. destruct (chunks_table db); inversion Hg; simpl; eauto. }
  destruct Ht as [e1 Ht].
  destruct (create_index _ _); simpl; eexists _, (e1 :: evs); (split; [done |]);
    rewrite Ht; rewrite <- !app_assoc; simpl; by rewrite <- ?app_assoc.
Qed.

End StoreFacts.

(** The batches are the list of chunks cut into consecutive slices of at
    most [batch_size] chunks. *)

Section BatchFacts.

Import CodebaseIndex.

Lemma slices_concat {A} (m : nat) : forall (l : list A),
  (length l <= m * batch_size)%nat ->
  concat (List.map (fun i => take batch_size (drop i l))
                   (List.map (fun k => (k * batch_size)%nat) (List.seq 0 m))) = l.
Proof.
  induction m as [| m IH]; intros l Hl.
  - destruct l; [done | simpl in Hl; lia].
  - rewrite <- cons_seq, <- seq_shift. rewrite !List.map_cons, !List.map_map. simpl concat.
    transitivity (take batch_size l ++ drop batch_size l); [| apply take_drop].
    f_equal. rewrite <- (IH (drop batch_size l)) at 1.
    + symmetry. rewrite List.map_map. f_equal. apply List.map_ext. intros k.
      rewrite drop_drop. reflexivity.
    + rewrite length_drop. lia.
Qed.

Lemma batches_concat (chunks : list Chunk) : concat (batches chunks) = chunks.
Proof.
  unfold batches, batch_starts. apply slices_concat.
  unfold batch_size.
  pose proof (Nat.div_mod_eq (length chunks + 100 - 1) 100).
  pose proof (Nat.mod_upper_bound (length chunks + 100 - 1) 100). lia.
Qed.

Lemma batches_bounded (chunks : list Chunk) :
  Forall (fun batch => (length batch <= batch_size)%nat) (batches chunks).
Proof.
  unfold batches. apply Forall_forall. intros b Hb.
  apply list_elem_of_In, in_map_iff in Hb as (i & <- & _).
  rewrite length_take. lia.
Qed.

Lemma batches_nil : batches [] = [].
Proof. reflexivity. Qed.

End BatchFacts.

Section StoreClaims.

Context {Vec : Type} `{CodebaseIndex.Collaborators Vec}.

Import CodebaseIndex.


(** C10. [store] on an empty list of chunks returns at once: the database,
    its table, its index and the trace of effects (no call of the
    embedding function, no table opened or created) are what they were. *)
Theorem store_empty_is_noop (db : Db Vec) :
  store db [] = (db, Ok tt).
Proof. reflexivity. Qed.

(** By contrast a non-empty list always reaches the table. *)
Lemma store_nonempty_reaches_table (db : Db Vec) c chunks :
  exists ev evs,
    trace (fst (store db (c :: chunks))) = trace db ++ ev :: evs
    /\ (ev = EvOpenTable \/ ev = EvCreateTable).
Proof.
  unfold store, get_table.
  destruct (chunks_table db) as [t |];
    destruct (embed_batches _) as [[| r rs] evs]; simpl;
    try (destruct (table_add _)); simpl;
    try (destruct (create_index _ _)); simpl;
    eexists _, _; (split; [rewrite <- ?app_assoc; simpl; reflexivity | auto]).
Qed.

End StoreClaims.

(** A stored chunk comes back from a result row with the line numbers it was
    stored with; a chunk stored without a range comes back as lines 0 to 0. *)
Lemma chunk_of_row_of_span {Vec : Type} (c : Chunk) (v : Vec) :
  CodeParser.line_span (CodebaseIndex.chunk_of (CodebaseIndex.row_of c v))
  = Some (default (0, 0) (CodeParser.line_span c)).
Proof. unfold CodeParser.line_span. by destruct c as [? ? [r |] ? ?]. Qed.

(** C4, on the code.  A one-line file that the splitter cuts into two pieces
    gives a second chunk that starts at line 1 and ends at line 0, and an
    empty piece gives a chunk from line 0 to line -1: in both the start line
    is past the end line.  Stored and retrieved, the chunks come back with
    the same line numbers. *)
Theorem chunk_code_start_after_end :
  let chunks := @CodeParser.chunk_code (fixed_splitter ["x"; "y"]) "a.py" "xy" in
  let C := Demo.lance Demo.faithful_provider in
  List.map CodeParser.line_span chunks = [Some (0, 0); Some (1, 0)]
  /\ List.map CodeParser.line_span
              (@CodeParser.chunk_code (fixed_splitter [""]) "a.py" "x")
     = [Some (0, -1)]
  /\ match snd (@CodebaseIndex.retrieve _ C
                  (fst (@CodebaseIndex.store _ C Demo.empty_db chunks))
                  "y" 2 [] None None) with
     | Ok found => List.map CodeParser.line_span found = [Some (0, 0); Some (1, 0)]
     | Raise _ => False
     end.
Proof. vm_compute. repeat split. Qed.


(** C1, on the code.  The table holds 300 rows and [store] appends one more:
    the table then has 301 rows, for which the size rule gives a partitioned
    index with 15 partitions, yet the index [store] asks for and installs is
    the small-corpus one, chosen from the single row of this call. *)
Theorem store_index_ignores_existing_rows :
  let C := Demo.lance Demo.faithful_provider in
  let db' := fst (@CodebaseIndex.store _ C Demo.db300 [Demo.chunk_at "new.py" "x = 1"]) in
  option_map (fun t => PyStr.len (CodebaseIndex.table_rows t)) (CodebaseIndex.chunks_table db')
  = Some 301
  /\ option_map CodebaseIndex.table_index (CodebaseIndex.chunks_table db')
     = Some (Some CodebaseIndex.SmallIndex)
  /\ CodebaseIndex.trace db'
     = [CodebaseIndex.EvOpenTable; CodebaseIndex.EvEmbed ["x = 1"];
        CodebaseIndex.EvAddRows 1;
        CodebaseIndex.EvCreateIndex CodebaseIndex.SmallIndex]
  /\ CodebaseIndex.choose_index 301 = CodebaseIndex.PartitionedIndex 15 96 8.
Proof. vm_compute. repeat split. Qed.

(** * Properties of retrieval *)

Section RetrievalFacts.

Context {Vec : Type} `{CodebaseIndex.Collaborators Vec}.

Import CodebaseIndex.

(** [retrieve], once the query is embedded and the search has answered. *)
Lemma retrieve_returns (db : Db Vec) query n tags fd lang q qs rs :
  embeddings_provider [query] = Ok (q :: qs) ->
  search (table_rows (snd (get_table db))) q
         (filter_str (filter_conditions tags fd lang)) n = Ok rs ->
  snd (retrieve db query n tags fd lang) = Ok (List.map chunk_of rs).
Proof.
  intros Hq Hs. unfold retrieve.
  destruct (get_table db) as [db1 table]. simpl in Hs.
  rewrite Hq, Hs. by destruct rs.
Qed.

Lemma clear_drops_table (db : Db Vec) : chunks_table (fst (clear db)) = None.
Proof. unfold clear. by destruct (chunks_table db) eqn:Ht. Qed.

Lemma get_table_after_clear (db : Db Vec) :
  table_rows (snd (get_table (fst (clear db)))) = [].
Proof.
  unfold get_table. by rewrite clear_drops_table.
Qed.

Lemma dir_filters_without_branch (tags : list (gmap string string)) tag :
  dir_filters (delete "branch" tag :: tags) = dir_filters (tag :: tags).
Proof.
  simpl. by rewrite lookup_delete_ne.
Qed.

End RetrievalFacts.

Section RetrievalClaims.

Context {Vec : Type} `{CodebaseIndex.Collaborators Vec}.

Import CodebaseIndex.

(** What is taken from the table's search: it answers with rows of the
    table it searched.  Which rows, how many and in which order is decided
    inside the vector store. *)
Hypothesis search_within :
  forall rows q f n rs, search rows q f n = Ok rs -> forall r, In r rs -> In r rows.

(** C7. Whatever was stored, after [clear] the table is gone, rows of
    every repository and branch with it, and a query that reaches the
    search gets the empty list; no query gets anything else. *)
Theorem store_clear_retrieve_empty (db : Db Vec) chunks query n tags fd lang q qs rs :
  let db2 := fst (clear (fst (store db chunks))) in
  embeddings_provider [query] = Ok (q :: qs) ->
  search [] q (filter_str (filter_conditions tags fd lang)) n = Ok rs ->
  chunks_table db2 = None
  /\ snd (retrieve db2 query n tags fd lang) = Ok []
  /\ forall query' n' tags' fd' lang' out,
       snd (retrieve db2 query' n' tags' fd' lang') = Ok out -> out = [].
Proof.
  intros db2 Hq Hs. subst db2.
  split; [apply clear_drops_table |].
  assert (Hnone : forall q' f' n' rs', search [] q' f' n' = Ok rs' -> rs' = []).
  { intros q' f' n' [| r rs'] Hs'; [done |].
    destruct (search_within _ _ _ _ _ Hs' r). by left. }
  split.
  - rewrite (retrieve_returns _ query n tags fd lang q qs rs Hq).
    + by rewrite (Hnone _ _ _ _ Hs).
    + by rewrite get_table_after_clear.
  - intros query' n' tags' fd' lang' out. unfold retrieve.
    pose proof (get_table_after_clear (fst (store db chunks))) as Hrows.
    destruct (get_table _) as [db1 table]. simpl in Hrows. rewrite Hrows.
    destruct (embeddings_provider [query']) as [[| q' qs'] | e]; simpl; try done.
    destruct (search [] q' _ n') as [rs' | e] eqn:Hs'; simpl; [| done].
    rewrite (Hnone _ _ _ _ Hs'). by inversion 1.
Qed.

(** C9. When the first tag has a branch but no repo, the filter holds no
    repo condition and no branch condition: it is the filter the same
    tags give without the branch, and so is the whole retrieval. *)
Theorem branch_filter_needs_repo (db : Db Vec) query n
        (tag : gmap string string) tags fd lang b :
  tag !! "repo" = None ->
  tag !! "branch" = Some b ->
  let conds := filter_conditions (tag :: tags) fd lang in
  (forall c, In c conds ->
             (forall r, c <> RepoIs r) /\ (forall b', c <> BranchIs b'))
  /\ conds = filter_conditions (delete "branch" tag :: tags) fd lang
  /\ retrieve db query n (tag :: tags) fd lang
     = retrieve db query n (delete "branch" tag :: tags) fd lang.
Proof.
  intros Hrepo Hbranch conds.
  assert (Heq : conds = filter_conditions (delete "branch" tag :: tags) fd lang).
  { subst conds. unfold filter_conditions.
    rewrite dir_filters_without_branch.
    rewrite lookup_delete_ne by done. by rewrite Hrepo. }
  split; [| split; [exact Heq |]].
  - subst conds. unfold filter_conditions. rewrite Hrepo.
    generalize (dir_filters (tag :: tags)). intros ds c Hc.
    cbn [truthy app] in Hc. apply in_app_or in Hc as [Hc | Hc].
    + destruct (truthy fd); [destruct Hc as [<- | []]; by split |].
      destruct ds; [done |].
      destruct Hc as [<- | []]; by split.
    + destruct (truthy lang); [destruct Hc as [<- | []]; by split | done].
  - unfold retrieve. fold conds. by rewrite Heq.
Qed.

End RetrievalClaims.

(** ** The toy store is an exhaustive nearest-neighbour search *)

Section DemoFacts.

Import CodebaseIndex Demo.

Let nearer (q : Z) (a b : Row Z) : Prop :=
  closer q (row_embedding a) (row_embedding b).

Lemma insert_by_in q r l x : In x (insert_by q r l) -> x = r \/ In x l.
Proof.
  induction l as [| y l IH]; simpl.
  - intros [<- | []]. by left.
  - destruct (_ <=? _).
    + intros [<- | Hx]; [by left | by right].
    + intros [<- | Hx]; [right; by left |].
      destruct (IH Hx) as [-> | Hl]; [by left | right; by right].
Qed.

Lemma nearest_first_in q rows x : In x (nearest_first q rows) -> In x rows.
Proof.
  induction rows as [| r rows IH]; simpl; [done |].
  intros Hx. apply insert_by_in in Hx as [-> | Hx]; [by left | right; by apply IH].
Qed.

Lemma insert_by_sorted q r l :
  StronglySorted (nearer q) l -> StronglySorted (nearer q) (insert_by q r l).
Proof.
  induction 1 as [| y l Hl IH Hy]; simpl.
  - constructor; constructor.
  - destruct (_ <=? _) eqn:Hle.
    + apply Z.leb_le in Hle. constructor; [by constructor |].
      constructor; [exact Hle |].
      eapply Forall_impl; [exact Hy |]. unfold nearer, closer in *. simpl. intros; lia.
    + apply Z.leb_gt in Hle. constructor; [exact IH |].
      apply Forall_forall. intros x Hx. apply list_elem_of_In in Hx.
      apply insert_by_in in Hx as [-> | Hx].
      * unfold nearer, closer. lia.
      * rewrite Forall_forall in Hy. apply Hy. by apply list_elem_of_In.
Qed.

Lemma nearest_first_sorted q rows : StronglySorted (nearer q) (nearest_first q rows).
Proof.
  induction rows as [| r rows IH]; simpl; [constructor | by apply insert_by_sorted].
Qed.

Lemma take_sorted {A} (R : A -> A -> Prop) k l :
  StronglySorted R l -> StronglySorted R (take k l).
Proof.
  intros Hl. revert k. induction Hl as [| x l Hl IH Hx]; intros [| k]; simpl;
    try constructor; [apply IH | by apply Forall_take].
Qed.

Lemma exact_search_limit rows q f n rs :
  exact_search rows q f n = Ok rs -> PyStr.len rs <= n.
Proof.
  unfold exact_search. destruct (n <=? 0) eqn:Hn; [done |].
  apply Z.leb_gt in Hn. intros [= <-]. unfold PyStr.len. rewrite length_take. lia.
Qed.

Lemma exact_search_ranked rows q f n rs :
  exact_search rows q f n = Ok rs ->
  StronglySorted (fun a b => closer q (row_embedding a) (row_embedding b)) rs.
Proof.
  unfold exact_search. destruct (n <=? 0); [done |]. intros [= <-].
  apply (take_sorted (nearer q)), nearest_first_sorted.
Qed.

Lemma exact_search_within rows q f n rs :
  exact_search rows q f n = Ok rs -> forall r, In r rs -> In r rows.
Proof.
  unfold exact_search. destruct (n <=? 0); [done |]. intros [= <-] r Hr.
  apply (nearest_first_in q). apply list_elem_of_In.
  apply list_elem_of_In in Hr. eapply subseteq_take, Hr.
Qed.

End DemoFacts.

Lemma store_clear_retrieve_empty_witness :
  let C := Demo.lance Demo.faithful_provider in
  @CodebaseIndex.embeddings_provider _ C ["abcd"] = Ok [4]
  /\ @CodebaseIndex.search _ C [] 4 None 2 = Ok []
  /\ snd (@CodebaseIndex.retrieve _ C
            (fst (@CodebaseIndex.clear _ C
                    (fst (@CodebaseIndex.store _ C Demo.db3 [Demo.chunk_at "d.py" "abcd"]))))
            "abcd" 2 [] None None) = Ok [].
Proof.
  split; [reflexivity |]. split; [reflexivity |].
  destruct (@store_clear_retrieve_empty Z (Demo.lance Demo.faithful_provider)
              exact_search_within
              Demo.db3 [Demo.chunk_at "d.py" "abcd"] "abcd" 2 [] None None 4 [] [])
    as (_ & Hret & _).
  - reflexivity.
  - reflexivity.
  - exact Hret.
Defined.

Lemma branch_filter_needs_repo_witness :
  let tag : gmap string string := {[ "branch" := "dev" ]} in
  tag !! "repo" = None
  /\ tag !! "branch" = Some "dev"
  /\ CodebaseIndex.filter_conditions [tag] None (Some "python")
     = CodebaseIndex.filter_conditions [delete "branch" tag] None (Some "python").
Proof.
  split; [reflexivity |]. split; [reflexivity |].
  destruct (@branch_filter_needs_repo Z (Demo.lance Demo.faithful_provider)
              Demo.db3 "abcd" 2 {[ "branch" := "dev" ]} [] None (Some "python") "dev")
    as (_ & Heq & _).
  - reflexivity.
  - reflexivity.
  - exact Heq.
Defined.

(** * Properties of the pattern matcher *)

Section PatternFacts.
Import PyStr GitHubService.

Local Arguments eqc : simpl never.

Lemma eqc_true a b : eqc a b = true <-> a = b.
Proof. apply Ascii.eqb_eq. Qed.

Lemma eqc_false a b : eqc a b = false <-> a <> b.
Proof. apply Ascii.eqb_neq. Qed.

Lemma eqc_comm a b : eqc a b = eqc b a.
Proof. apply Ascii.eqb_sym. Qed.

Lemma eqc_refl a : eqc a a = true.
Proof. by apply eqc_true. Qed.

Lemma append_nil s : "" +:+ s = s.
Proof. reflexivity. Qed.

Lemma append_cons c s t : String c s +:+ t = String c (s +:+ t).
Proof. reflexivity. Qed.

Lemma startswith_nil s : startswith "" s = true.
Proof. by destruct s. Qed.

Lemma startswith_cons a p b s :
  startswith (String a p) (String b s) = eqc a b && startswith p s.
Proof. reflexivity. Qed.

Lemma replace_go_here old new c s :
  replace_go old new 0 (String c s)
  = if startswith old (String c s)
    then new +:+ replace_go old new (Nat.pred (String.length old)) s
    else String c (replace_go old new 0 s).
Proof. reflexivity. Qed.

Lemma replace_go_skip old new k c s :
  replace_go old new (S k) (String c s) = replace_go old new k s.
Proof. reflexivity. Qed.

Lemma split_nonempty sep s : split sep s <> [].
Proof.
  destruct s as [| c s]; simpl; [done |].
  destruct (eqc c sep); [done |]. by destruct (split sep s).
Qed.

Lemma split_uncons sep s :
  split sep s = List.hd EmptyString (split sep s) :: List.tl (split sep s).
Proof. pose proof (split_nonempty sep s). by destruct (split sep s). Qed.

Lemma split_sep sep s : split sep (String sep s) = EmptyString :: split sep s.
Proof. simpl. by rewrite eqc_refl. Qed.

Lemma split_other sep c s :
  eqc c sep = false ->
  split sep (String c s)
  = String c (List.hd EmptyString (split sep s)) :: List.tl (split sep s).
Proof.
  intros Hc. simpl. rewrite Hc.
  pose proof (split_nonempty sep s). by destruct (split sep s).
Qed.

(** Removing [**/] from [**/X/**] leaves [X/**]. *)
Lemma replace_leading_glob X :
  has_char "*" X = false ->
  replace "**/" "" ("**/" +:+ X +:+ "/**") = X +:+ "/**".
Proof.
  intros HX. unfold replace.
  rewrite !append_cons, append_nil, replace_go_here.
  rewrite !startswith_cons, !eqc_refl, startswith_nil. cbn [andb String.length Nat.pred].
  rewrite !replace_go_skip, append_nil.
  induction X as [| c X IH]; [reflexivity |].
  simpl in HX. apply orb_false_iff in HX as [Hc HX].
  rewrite append_cons, replace_go_here, startswith_cons, eqc_comm, Hc.
  cbn [andb]. by rewrite IH.
Qed.

(** Removing [/**] from [X/**] leaves [X]. *)
Lemma replace_trailing_glob X :
  has_char "*" X = false ->
  replace "/**" "" (X +:+ "/**") = X.
Proof.
  intros HX. unfold replace.
  induction X as [| c X IH]; [reflexivity |].
  simpl in HX. apply orb_false_iff in HX as [Hc HX].
  assert (Hnext : startswith "**" (X +:+ "/**") = false).
  { destruct X as [| d X]; [reflexivity |].
    simpl in HX. apply orb_false_iff in HX as [Hd _].
    by rewrite append_cons, startswith_cons, eqc_comm, Hd. }
  rewrite append_cons, replace_go_here, startswith_cons, Hnext, andb_false_r.
  by rewrite IH.
Qed.

Lemma strip_globs_segment X :
  has_char "*" X = false -> strip_globs ("**/" +:+ X +:+ "/**") = X.
Proof.
  intros HX. unfold strip_globs.
  by rewrite replace_leading_glob, replace_trailing_glob.
Qed.

(** [X/] opens [p/] exactly when [X] is the first component of [p]. *)
Lemma startswith_first_segment X :
  has_char "/" X = false ->
  forall p, startswith (X +:+ "/") (p +:+ "/") = true
            <-> List.hd EmptyString (split "/" p) = X.
Proof.
  induction X as [| x X IH]; intros HX p.
  - rewrite append_nil. destruct p as [| c p]; [done |].
    rewrite append_cons, startswith_cons, startswith_nil, andb_true_r, eqc_comm.
    destruct (eqc c "/") eqn:Hc.
    + apply eqc_true in Hc as ->. by rewrite split_sep.
    + by rewrite (split_other _ _ _ Hc).
  - simpl in HX. apply orb_false_iff in HX as [Hx HX].
    destruct p as [| c p].
    + rewrite append_nil, append_cons, startswith_cons, Hx. done.
    + rewrite !append_cons, startswith_cons.
      destruct (eqc c "/") eqn:Hc.
      * apply eqc_true in Hc as ->. rewrite Hx, split_sep. done.
      * rewrite (split_other _ _ _ Hc). cbn [List.hd].
        rewrite andb_true_iff, eqc_true, (IH HX p).
        split; [by intros [-> ->] | by intros [= -> ->]].
Qed.

Lemma contains_here needle c hay :
  contains needle (String c hay) = startswith needle (String c hay) || contains needle hay.
Proof. reflexivity. Qed.

Lemma contains_later_segment X :
  has_char "/" X = false ->
  forall p, contains ("/" +:+ X +:+ "/") (p +:+ "/") = true
            <-> In X (List.tl (split "/" p)).
Proof.
  intros HX. induction p as [| c p IH].
  - rewrite append_nil, append_cons, append_nil, contains_here, startswith_cons.
    destruct X; done.
  - rewrite (append_cons c), contains_here, orb_true_iff, IH.
    rewrite (append_cons "/"), append_nil, startswith_cons.
    destruct (eqc c "/") eqn:Hc.
    + apply eqc_true in Hc as ->. rewrite eqc_refl, split_sep. cbn [andb List.tl].
      rewrite (split_uncons "/" p) at 2. cbn [In].
      by rewrite (startswith_first_segment X HX p).
    + rewrite (split_other _ _ _ Hc). cbn [List.tl].
      rewrite eqc_comm, Hc. cbn [andb]. split; [by intros [? | ?] | by right].
Qed.

Lemma contains_segment X :
  has_char "/" X = false ->
  forall p, contains ("/" +:+ X +:+ "/") ("/" +:+ p +:+ "/") = true
            <-> In X (split "/" p).
Proof.
  intros HX p.
  rewrite (append_cons "/" "" (p +:+ "/")), append_nil, contains_here, orb_true_iff.
  rewrite (contains_later_segment X HX p).
  rewrite (append_cons "/"), append_nil, startswith_cons, eqc_refl. cbn [andb].
  rewrite (startswith_first_segment X HX p).
  rewrite (split_uncons "/" p) at 3.
  cbn [In]. done.
Qed.

End PatternFacts.

Section PatternClaims.

Import PyStr GitHubService.

(** C8, as the code has it.  For a segment [X] without a star or a slash,
    the pattern [**/X/**] excludes a path exactly when [X] is one of the
    components of the path between slashes: a directory on the way or the
    file name itself, taken whole. *)
Theorem should_exclude_iff_segment path X :
  has_char "*" X = false ->
  has_char "/" X = false ->
  should_exclude path ["**/" +:+ X +:+ "/**"] = true <-> In X (split "/" path).
Proof.
  intros Hstar Hslash. unfold should_exclude. cbn [existsb].
  rewrite orb_false_r, (strip_globs_segment X Hstar).
  apply (contains_segment X Hslash).
Qed.

End PatternClaims.

Lemma should_exclude_iff_segment_witness :
  PyStr.has_char "*" "node_modules" = false
  /\ PyStr.has_char "/" "node_modules" = false
  /\ GitHubService.should_exclude "web/node_modules/left-pad/index.js"
                                  ["**/node_modules/**"] = true.
Proof.
  split; [reflexivity |]. split; [reflexivity |].
  apply (should_exclude_iff_segment "web/node_modules/left-pad/index.js" "node_modules").
  - reflexivity.
  - reflexivity.
  - vm_compute. right. left. reflexivity.
Defined.

(** C8, as stated, fails.  The file name [node_modules.py] contains the
    segment [node_modules], yet the pattern [**/node_modules/**] does not
    exclude [src/node_modules.py], which [list_files] yields with its
    default patterns. *)
Lemma file_named_like_segment_is_kept :
  PyStr.contains "node_modules" "node_modules.py" = true
  /\ GitHubService.should_exclude "src/node_modules.py" ["**/node_modules/**"] = false
  /\ GitHubService.yields "src/node_modules.py"
       GitHubService.default_include_patterns
       GitHubService.default_exclude_patterns = true
  /\ ~ (forall path name X,
          List.last (PyStr.split "/" path) EmptyString = name ->
          PyStr.contains X name = true ->
          GitHubService.should_exclude path ["**/" +:+ X +:+ "/**"] = true).
Proof.
  split; [reflexivity |]. split; [reflexivity |]. split; [reflexivity |].
  intros Hall.
  specialize (Hall "src/node_modules.py" "node_modules.py" "node_modules").
  discriminate Hall; reflexivity.
Qed.

(** * Further properties of the vector store *)

Section StoreExtras.

Context {Vec : Type} `{CodebaseIndex.Collaborators Vec}.

Import CodebaseIndex.

Lemma embed_batches_texts (bs : list (list Chunk)) :
  embedded_texts (snd (embed_batches bs)) = List.map (List.map content) bs.
Proof.
  induction bs as [| b bs IH]; [done |]. simpl.
  unfold embed_batch at 1. destruct (embed_batches bs) as [rows' evs'] eqn:Hbs.
  simpl in IH. destruct (embeddings_provider _); simpl; by rewrite IH.
Qed.

Lemma embed_batches_rows_le (bs : list (list Chunk)) :
  (length (fst (embed_batches bs)) <= length (concat bs))%nat.
Proof.
  induction bs as [| b bs IH]; [done |]. simpl.
  unfold embed_batch at 1. destruct (embed_batches bs) as [rows' evs'] eqn:Hbs.
  simpl in IH. destruct (embeddings_provider _); simpl; rewrite !length_app.
  - rewrite zip_rows_length. lia.
  - simpl. lia.
Qed.

Lemma batches_nonempty (chunks : list Chunk) :
  Forall (fun batch => batch <> []) (batches chunks).
Proof.
  unfold batches, batch_starts. apply Forall_forall. intros b Hb.
  apply list_elem_of_In, in_map_iff in Hb as (i & <- & Hi).
  apply in_map_iff in Hi as (k & <- & Hk). apply in_seq in Hk.
  assert (Hlt : (k * batch_size < length chunks)%nat).
  { unfold batch_size in *.
    pose proof (Nat.div_mod_eq (length chunks + 100 - 1) 100).
    pose proof (Nat.mod_upper_bound (length chunks + 100 - 1) 100 ltac:(done)).
    destruct Hk as [_ Hk].
    generalize dependent ((length chunks + 100 - 1) `div` 100)%nat.
    generalize dependent ((length chunks + 100 - 1) `mod` 100)%nat.
    intros. lia. }
  intros Hnil. apply (f_equal length) in Hnil.
  rewrite length_take, length_drop in Hnil. unfold batch_size in *.
  change (length (@nil Chunk)) with 0%nat in Hnil. lia.
Qed.

(** X1. Every chunk's text goes to the embedding function exactly once, in
    order, in calls of 1 to 100 texts, whether or not calls fail; and the
    rows kept never outnumber the chunks. *)
Theorem store_submits_each_chunk_once (chunks : list Chunk) :
  let calls := embedded_texts (snd (embed_batches (batches chunks))) in
  concat calls = List.map content chunks
  /\ Forall (fun texts => (1 <= length texts <= 100)%nat) calls
  /\ (length (fst (embed_batches (batches chunks))) <= length chunks)%nat.
Proof.
  intros calls. subst calls. rewrite embed_batches_texts.
  split; [| split].
  - rewrite <- (batches_concat chunks) at 2.
    generalize (batches chunks). intros bs.
    induction bs as [| b bs IH]; [done |]. simpl. by rewrite IH, List.map_app.
  - apply Forall_forall. intros texts Ht.
    apply list_elem_of_In, in_map_iff in Ht as (b & <- & Hb).
    rewrite length_map.
    pose proof (batches_nonempty chunks) as Hne. pose proof (batches_bounded chunks) as Hle.
    rewrite Forall_forall in Hne, Hle. apply list_elem_of_In in Hb.
    specialize (Hne b Hb). specialize (Hle b Hb). unfold batch_size in Hle.
    destruct b; [done | simpl in *; lia].
  - pose proof (embed_batches_rows_le (batches chunks)) as Hle.
    by rewrite batches_concat in Hle.
Qed.


Lemma get_table_view (db : Db Vec) :
  table_rows (snd (get_table db)) = existing_rows db
  /\ existing_rows (fst (get_table db)) = existing_rows db
  /\ table_index (snd (get_table db)) = (chunks_table db ≫= table_index)
  /\ exists ev, trace (fst (get_table db)) = trace db ++ [ev]
                /\ (ev = EvOpenTable \/ ev = EvCreateTable).
Proof.
  unfold get_table, existing_rows.
  destruct (chunks_table db) as [t |] eqn:Ht; simpl; rewrite ?Ht; eauto 10.
Qed.

Lemma zip_rows_elementwise (f : string -> Vec) (batch : list Chunk) :
  zip_rows batch (List.map f (List.map content batch))
  = List.map (fun c => row_of c (f (content c))) batch.
Proof. induction batch as [| c batch IH]; [done |]. simpl. by rewrite IH. Qed.

Lemma embed_batches_elementwise (f : string -> Vec) (bs : list (list Chunk)) :
  (forall texts, embeddings_provider texts = Ok (List.map f texts)) ->
  fst (embed_batches bs) = List.map (fun c => row_of c (f (content c))) (concat bs).
Proof.
  intros Hf. induction bs as [| b bs IH]; [done |]. simpl.
  unfold embed_batch at 1. rewrite Hf.
  destruct (embed_batches bs) as [rows' evs']. simpl in *.
  by rewrite IH, zip_rows_elementwise, List.map_app.
Qed.

(** The rows of the table after [store], in terms of what the batch loop
    collected. *)
Lemma store_rows (db : Db Vec) (chunks : list Chunk) :
  let all_rows := fst (embed_batches (batches chunks)) in
  match snd (store db chunks) with
  | Ok _ => existing_rows (fst (store db chunks)) = existing_rows db ++ all_rows
  | Raise e => existing_rows (fst (store db chunks)) = existing_rows db
               /\ table_add all_rows = Raise e
  end.
Proof.
  intros all_rows. subst all_rows. destruct chunks as [| c chunks].
  - simpl. by rewrite app_nil_r.
  - unfold store.
    destruct (get_table_view db) as (Hrows & Hdb1 & _).
    destruct (get_table db) as [db1 table]. simpl in Hrows, Hdb1.
    destruct (embed_batches (batches (c :: chunks))) as [[| r rs] evs]; simpl.
    + by rewrite app_nil_r.
    + destruct (table_add (r :: rs)) as [[] | e] eqn:Hadd; simpl.
      * destruct (create_index _ _); simpl; unfold existing_rows; simpl; by rewrite Hrows.
      * done.
Qed.

(** X2. With an embedding function that embeds each text on its own and a
    table that takes the rows, [store] appends exactly one row per chunk, in
    the order of the chunks, whatever the index construction does. *)
Theorem store_one_row_per_chunk (f : string -> Vec) (db : Db Vec) (chunks : list Chunk) :
  (forall texts, embeddings_provider texts = Ok (List.map f texts)) ->
  (forall rows, table_add rows = Ok tt) ->
  existing_rows (fst (store db chunks))
  = existing_rows db ++ List.map (fun c => row_of c (f (content c))) chunks.
Proof.
  intros Hf Hadd. pose proof (store_rows db chunks) as Hs. simpl in Hs.
  rewrite (embed_batches_elementwise f _ Hf), batches_concat in Hs.
  destruct (snd (store db chunks)) as [[] | e]; [done |].
  destruct Hs as [_ Hs]. by rewrite Hadd in Hs.
Qed.

(** X3. [store] has no upsert: storing the same chunks a second time appends
    a second copy of every row. *)
Theorem store_twice_duplicates_rows (f : string -> Vec) (db : Db Vec) (chunks : list Chunk) :
  (forall texts, embeddings_provider texts = Ok (List.map f texts)) ->
  (forall rows, table_add rows = Ok tt) ->
  let rows := List.map (fun c => row_of c (f (content c))) chunks in
  existing_rows (fst (store (fst (store db chunks)) chunks))
  = existing_rows db ++ rows ++ rows.
Proof.
  intros Hf Hadd rows. subst rows.
  assert (Hone : forall d, existing_rows (fst (store d chunks))
                           = existing_rows d ++ List.map (fun c => row_of c (f (content c))) chunks).
  { intros d. pose proof (store_rows d chunks) as Hs. simpl in Hs.
    rewrite (embed_batches_elementwise f _ Hf), batches_concat in Hs.
    destruct (snd (store d chunks)) as [[] | e]; [done |].
    destruct Hs as [_ Hs]. by rewrite Hadd in Hs. }
  by rewrite !Hone, <- app_assoc.
Qed.

(** X4. [store] never removes or rewrites a row: the rows held before are a
    prefix of the rows held after, and at most one row per chunk is added. *)
Theorem store_keeps_existing_rows (db : Db Vec) (chunks : list Chunk) :
  exists new_rows,
    existing_rows (fst (store db chunks)) = existing_rows db ++ new_rows
    /\ (length new_rows <= length chunks)%nat.
Proof.
  pose proof (store_rows db chunks) as Hs. simpl in Hs.
  pose proof (embed_batches_rows_le (batches chunks)) as Hle.
  rewrite batches_concat in Hle.
  destruct (snd (store db chunks)) as [[] | e].
  - eexists; split; [exact Hs | exact Hle].
  - exists []. rewrite app_nil_r. split; [by destruct Hs | simpl; lia].
Qed.


End StoreExtras.

(** * Rows and chunks *)

Section RowExtras.

Context {Vec : Type} `{CodebaseIndex.Collaborators Vec} `{Splitter}.

Import CodeParser CodebaseIndex.

Lemma place_chunks_shape filepath nlines pieces :
  forall cur c,
    In c (place_chunks filepath nlines cur pieces) ->
    exists p s, c = placed filepath p nlines s /\ cur <= s.
Proof.
  induction pieces as [| q qs IH]; intros cur c Hc; [done |].
  destruct Hc as [<- | Hc].
  - exists q, cur. split; [done | lia].
  - destruct (IH _ _ Hc) as (p & s & -> & Hs). exists p, s. split; [done | lia].
Qed.

Lemma chunk_code_shape filepath content c :
  In c (chunk_code filepath content) ->
  c = whole_file filepath content
  \/ exists p s, c = placed filepath p (PyStr.len (PyStr.splitlines content)) s /\ 0 <= s.
Proof.
  unfold chunk_code. destruct (negb _); [intros [<- | []]; by left |].
  destruct (split_text _ _) as [[| p ps] | e]; try (intros [<- | []]; by left).
  intros Hc. right. exact (place_chunks_shape _ _ (p :: ps) 0 c Hc).
Qed.

(** X7. A chunk of [chunk_code], once tagged with repo and branch, written as
    a row and rebuilt from that row, is the same chunk when it carries a
    range; the whole-file chunk, which carries none, comes back with the
    range from line 0 to line 0. *)
Theorem chunk_row_round_trip file_path file_content c repo_name branch_name (v : Vec) :
  In c (chunk_code file_path file_content) ->
  let tagged := {| filepath := filepath c; content := content c;
                   range := range c; repo := repo_name; branch := branch_name |} in
  chunk_of (row_of tagged v)
  = match range c with
    | Some _ => tagged
    | None => {| filepath := filepath c; content := content c;
                 range := Some {| start := {| line := 0; character := 0 |};
                                  stop := {| line := 0; character := 0 |} |};
                 repo := repo_name; branch := branch_name |}
    end.
Proof.
  intros Hc tagged. subst tagged.
  destruct (chunk_code_shape _ _ _ Hc) as [-> | (p & s & -> & _)]; reflexivity.
Qed.

(** X8. Every chunk [retrieve] returns carries a range, with character 0 at
    both ends, also when the stored chunk had none. *)
Theorem retrieved_chunks_have_ranges (db : Db Vec) query n tags fd lang chunks :
  snd (retrieve db query n tags fd lang) = Ok chunks ->
  Forall (fun c => exists r, range c = Some r
                             /\ character (start r) = 0 /\ character (stop r) = 0) chunks.
Proof.
  unfold retrieve. destruct (get_table db) as [db1 table].
  destruct (embeddings_provider [query]) as [[| q qs] | e]; simpl; try done.
  destruct (search _ _ _ _) as [[| r rs] | e]; simpl; try done.
  - intros [= <-]. constructor.
  - intros [= <-]. apply Forall_forall. intros c Hc.
    apply list_elem_of_In in Hc.
    change (chunk_of r :: List.map chunk_of rs) with (List.map chunk_of (r :: rs)) in Hc.
    apply in_map_iff in Hc as (row & <- & _). by eexists.
Qed.

Lemma str_of_int_inj a b : PyStr.str_of_int a = PyStr.str_of_int b -> a = b.
Proof.
  unfold PyStr.str_of_int. intros Heq.
  assert (Hnn : forall z, Z.to_int z <> Decimal.Pos Decimal.Nil
                          /\ Z.to_int z <> Decimal.Neg Decimal.Nil).
  { intros [| p | p]; simpl; (split; [| try done]); try done;
      intros [= Hp]; by apply (DecimalPos.Unsigned.to_uint_nonnil p). }
  apply DecimalZ.to_int_inj.
  assert (Hs : Some (Z.to_int a) = Some (Z.to_int b)).
  { rewrite <- (NilZero.isi (Z.to_int a)), <- (NilZero.isi (Z.to_int b));
      try apply Hnn. by rewrite Heq. }
  by inversion Hs.
Qed.

Lemma append_inj_r (a b c : string) : a +:+ b = a +:+ c -> b = c.
Proof. induction a as [| x a IH]; simpl; [done |]. intros [= Hbc]. by apply IH. Qed.

Lemma place_chunks_ids_nodup filepath nlines pieces (v_of : Chunk -> Vec) :
  forall cur,
    NoDup (List.map (fun c => row_id (row_of c (v_of c)))
                    (place_chunks filepath nlines cur pieces)).
Proof.
  induction pieces as [| q qs IH]; intros cur; simpl; [constructor |].
  constructor; [| apply IH].
  intros Hin. apply list_elem_of_In, in_map_iff in Hin as (c & Hid & Hc).
  apply place_chunks_shape in Hc as (p & s & -> & Hs).
  simpl in Hid. apply append_inj_r in Hid. injection Hid as Hid.
  apply str_of_int_inj in Hid. unfold chunk_lines_overlap in Hs. lia.
Qed.

(** X9. The rows of the chunks [chunk_code] gives for one file get pairwise
    distinct ids: [filepath:start_line] identifies a chunk within its file. *)
Theorem chunk_ids_distinct_within_file filepath content (v_of : Chunk -> Vec) :
  NoDup (List.map (fun c => row_id (row_of c (v_of c))) (chunk_code filepath content)).
Proof.
  assert (Hone : forall c : Chunk, NoDup (List.map (fun c => row_id (row_of c (v_of c))) [c])).
  { intros c. simpl. constructor; [by intros ?%elem_of_nil | constructor]. }
  unfold chunk_code. destruct (negb _); [apply Hone |].
  destruct (split_text _ _) as [[| p ps] | e]; try apply Hone.
  apply (place_chunks_ids_nodup _ _ _ v_of).
Qed.

End RowExtras.

(** * Further properties of retrieval *)

Section FilterExtras.

Context {Vec : Type} `{CodebaseIndex.Collaborators Vec}.

Import CodebaseIndex.

Lemma dir_filters_without_directories (tags : list (gmap string string)) :
  dir_filters (List.map (delete "directory") tags) = [].
Proof.
  induction tags as [| t tags IH]; [done |]. simpl.
  by rewrite lookup_delete_eq.
Qed.

(** X10. A directory given to [retrieve] replaces the directories of the tags:
    the filter has the condition on that directory and is the one the tags
    give with their directories removed. *)
Theorem filter_directory_overrides_tags (tags : list (gmap string string)) fd lang :
  truthy fd = true ->
  In (PathUnder (default "" fd)) (filter_conditions tags fd lang)
  /\ filter_conditions tags fd lang
     = filter_conditions (List.map (delete "directory") tags) fd lang.
Proof.
  intros Hfd. unfold filter_conditions. rewrite Hfd. split.
  - apply in_or_app. right. apply in_or_app. left. by left.
  - destruct tags as [| t tags]; [done |]. simpl.
    by rewrite !lookup_delete_ne.
Qed.

Lemma dir_filters_ext (ts ts' : list (gmap string string)) :
  Forall2 (fun a b => a !! "directory" = b !! "directory") ts ts' ->
  dir_filters ts = dir_filters ts'.
Proof.
  induction 1 as [| a b ts ts' Hab _ IH]; [done |]. simpl. by rewrite Hab, IH.
Qed.

(** X11. The tags after the first one count only through their directories:
    their repos and branches do not reach the filter. *)
Theorem later_tags_only_give_directories (t : gmap string string) ts ts' fd lang :
  Forall2 (fun a b => a !! "directory" = b !! "directory") ts ts' ->
  filter_conditions (t :: ts) fd lang = filter_conditions (t :: ts') fd lang.
Proof.
  intros Hd. unfold filter_conditions.
  assert (Heq : dir_filters (t :: ts) = dir_filters (t :: ts')).
  { apply dir_filters_ext. by constructor. }
  by rewrite Heq.
Qed.

Lemma replace_backslash_clean (s : string) :
  PyStr.has_char "\" (PyStr.replace "\" "/" s) = false.
Proof.
  unfold PyStr.replace. induction s as [| c s IH]; [done |].
  cbn [PyStr.replace_go PyStr.startswith String.length Nat.pred].
  rewrite andb_true_r. destruct (PyStr.eqc "\" c) eqn:Hc.
  - exact IH.
  - cbn [PyStr.has_char]. rewrite IH, orb_false_r.
    unfold PyStr.eqc in *. by rewrite Ascii.eqb_sym.
Qed.

(** X12. The directory prefixes the tags put in the filter are never empty,
    never the root, and written with forward slashes only. *)
Theorem dir_filters_are_proper (tags : list (gmap string string)) :
  Forall (fun d => d <> "" /\ d <> "/" /\ PyStr.has_char "\" d = false) (dir_filters tags).
Proof.
  induction tags as [| t tags IH]; simpl; [constructor |].
  destruct (truthy (t !! "directory")); [| exact IH].
  destruct (negb (_ =? "")%string && _) eqn:Hd; [| exact IH].
  apply andb_true_iff in Hd as [H1 H2].
  apply negb_true_iff, String.eqb_neq in H1, H2.
  constructor; [| exact IH]. split; [done |]. split; [done |].
  apply replace_backslash_clean.
Qed.

(** X13. [retrieve] never changes the rows; it leaves a table behind, which it
    creates empty when there was none. *)
Theorem retrieve_leaves_rows (db : Db Vec) query n tags fd lang :
  existing_rows (fst (retrieve db query n tags fd lang)) = existing_rows db
  /\ is_Some (chunks_table (fst (retrieve db query n tags fd lang))).
Proof.
  unfold retrieve, get_table, existing_rows.
  destruct (chunks_table db) as [t |] eqn:Ht;
    destruct (embeddings_provider [query]) as [[| q qs] | e]; simpl;
    rewrite ?Ht; try (split; [done | by eexists]);
    destruct (search _ _ _ _) as [[| r rs] | e]; simpl; rewrite ?Ht;
    (split; [done | by eexists]).
Qed.

(** X14. When the embedding function gives no vector for the query, whether
    it raises or returns an empty list, [retrieve] raises and the table is
    not searched. *)
Theorem retrieve_needs_query_vector (db : Db Vec) query n tags fd lang :
  (forall q qs, embeddings_provider [query] <> Ok (q :: qs)) ->
  (exists e, snd (retrieve db query n tags fd lang) = Raise e)
  /\ exists ev, trace (fst (retrieve db query n tags fd lang))
                = trace db ++ [ev; EvEmbed [query]]
                /\ (ev = EvOpenTable \/ ev = EvCreateTable).
Proof.
  intros Hno. unfold retrieve.
  destruct (get_table_view db) as (_ & _ & _ & ev & Htr & Hev).
  destruct (get_table db) as [db1 table]. simpl in Htr.
  destruct (embeddings_provider [query]) as [[| q qs] | e] eqn:Hq; simpl.
  - split; [by eexists |]. exists ev. rewrite Htr, <- app_assoc. by split.
  - by destruct (Hno q qs).
  - split; [by eexists |]. exists ev. rewrite Htr, <- app_assoc. by split.
Qed.

(** X15. A second [clear] finds no table: it changes nothing and returns
    normally, whatever the first one returned. *)
Theorem clear_twice (db : Db Vec) :
  clear (fst (clear db)) = (fst (clear db), Ok tt).
Proof.
  unfold clear at 1. by rewrite clear_drops_table.
Qed.

End FilterExtras.

(** * Further properties of the pattern matcher and the walker *)

Section IncludeFacts.

Import PyStr GitHubService.

Local Arguments eqc : simpl never.

Lemma append_assoc_str (a b c : string) : (a +:+ b) +:+ c = a +:+ (b +:+ c).
Proof. induction a as [| x a IH]; [done |]. by rewrite !append_cons, IH. Qed.

Lemma rev_app_append (s1 s2 : string) : String.rev_app s1 s2 = String.rev s1 +:+ s2.
Proof.
  unfold String.rev. revert s2. induction s1 as [| a s1 IH]; intros s2; [done |].
  simpl. rewrite (IH (String a s2)), (IH (String a "")).
  by rewrite append_assoc_str.
Qed.

Lemma rev_append (a b : string) : String.rev (a +:+ b) = String.rev b +:+ String.rev a.
Proof.
  induction a as [| x a IH].
  - rewrite append_nil. change (String.rev "") with "".
    induction (String.rev b) as [| y r IHr]; [done |]. by rewrite append_cons, <- IHr.
  - rewrite append_cons. unfold String.rev at 1 3. cbn [String.rev_app].
    rewrite !rev_app_append, IH. by rewrite append_assoc_str.
Qed.

Lemma startswith_append_l (x y s : string) :
  startswith (x +:+ y) s = true -> startswith x s = true.
Proof.
  revert s. induction x as [| a x IH]; intros s; [by rewrite startswith_nil |].
  destruct s as [| b s]; [done |]. rewrite append_cons, !startswith_cons.
  intros [Hab Hs]%andb_true_iff. by rewrite Hab, (IH _ Hs).
Qed.

Lemma endswith_append_r (a b s : string) :
  endswith (a +:+ b) s = true -> endswith b s = true.
Proof. unfold endswith. rewrite rev_append. apply startswith_append_l. Qed.

Lemma split_no_sep sep s : has_char sep s = false -> split sep s = [s].
Proof.
  induction s as [| c s IH]; [done |]. simpl.
  intros [Hc Hs]%orb_false_iff. by rewrite Hc, (IH Hs).
Qed.

Lemma last_dot_part_glob ext :
  has_char "." ext = false -> last_dot_part ("**/*." +:+ ext) = ext.
Proof.
  intros Hext. unfold last_dot_part.
  rewrite !append_cons, append_nil.
  rewrite !split_other by done. rewrite split_sep, (split_no_sep _ _ Hext). done.
Qed.

(** X16. The include pattern [**/*.ext] matches exactly the paths whose last
    characters are [ext]: the dot is not looked for, so [**/*.py] also takes
    a file named [copy]. *)
Theorem include_glob_is_bare_suffix path ext :
  has_char "." ext = false ->
  should_include path ["**/*." +:+ ext] = endswith ext path.
Proof.
  intros Hext. unfold should_include. cbn [existsb].
  rewrite orb_false_r, (last_dot_part_glob ext Hext).
  assert (H1 : startswith "**/*." ("**/*." +:+ ext) = true).
  { rewrite !append_cons, append_nil, !startswith_cons, !eqc_refl. by rewrite startswith_nil. }
  assert (H2 : startswith "*." ("**/*." +:+ ext) = false).
  { by rewrite !append_cons, !startswith_cons. }
  rewrite H1, H2. cbn [andb orb].
  destruct (endswith ext path) eqn:He; [done |]. cbn [orb].
  destruct (endswith ("**/*." +:+ ext) path) eqn:Hp; [| done].
  apply endswith_append_r in Hp. by rewrite Hp in He.
Qed.

End IncludeFacts.

Section WalkerFacts.

Import PyStr GitHubService.

Lemma Entry_nested_ind (P : Entry -> Prop) :
  (forall p, P (FileEntry p)) ->
  (forall p contents, Forall P contents -> P (DirEntry p (Ok contents))) ->
  (forall p e, P (DirEntry p (Raise e))) ->
  forall e, P e.
Proof.
  intros Hf Hd Hr.
  refine (fix IH (e : Entry) : P e :=
            match e with
            | FileEntry p => Hf p
            | DirEntry p (Ok contents) =>
                Hd p contents
                   ((fix go (l : list Entry) : Forall P l :=
                       match l with
                       | [] => @List.Forall_nil _ P
                       | x :: r => @List.Forall_cons _ P x r (IH x) (go r)
                       end) contents)
            | DirEntry p (Raise e') => Hr p e'
            end).
Qed.

Lemma walk_is_filter inc exc e :
  walk inc exc e = List.filter (fun p => yields p inc exc) (reachable e).
Proof.
  induction e as [p | p contents IH | p e'] using Entry_nested_ind; simpl.
  - by destruct (yields p inc exc).
  - induction IH as [| x r Hx _ IHr]; [done |]. simpl.
    by rewrite List.filter_app, Hx, IHr.
  - done.
Qed.


(** X17. [list_files] yields, in depth-first order, exactly the reachable
    files that pass the include test and no exclude test, with the built-in
    patterns where none are given; a directory whose listing fails gives
    nothing and does not stop the walk of its siblings. *)
Theorem list_files_is_filtered_walk listing inc exc :
  list_files listing inc exc
  = List.filter (fun p => yields p (default default_include_patterns inc)
                                   (default default_exclude_patterns exc))
                (reachable_from listing).
Proof.
  unfold list_files, reachable_from. destruct listing as [contents | e]; [| done].
  induction contents as [| x r IH]; [done |]. simpl.
  by rewrite List.filter_app, walk_is_filter, IH.
Qed.

Lemma listed_passes listing inc exc p :
  In p (list_files listing inc exc) ->
  yields p (default default_include_patterns inc)
           (default default_exclude_patterns exc) = true.
Proof.
  unfold list_files. destruct listing as [contents | e]; [| done].
  intros Hp. apply in_flat_map in Hp as (x & _ & Hp).
  rewrite walk_is_filter in Hp. by apply filter_In in Hp as [_ Hp].
Qed.

Lemma should_exclude_false_in path pats pattern :
  should_exclude path pats = false ->
  In pattern pats ->
  contains ("/" +:+ strip_globs pattern +:+ "/") ("/" +:+ path +:+ "/") = false.
Proof.
  unfold should_exclude. intros Hf Hin.
  destruct (contains _ _) eqn:Hc; [| done].
  assert (Ht : existsb (fun pattern => contains ("/" +:+ strip_globs pattern +:+ "/")
                                                ("/" +:+ path +:+ "/")) pats = true).
  { apply existsb_exists. by exists pattern. }
  by rewrite Ht in Hf.
Qed.

(** X18. No path that [list_files] yields has a component named after an
    exclude pattern [**/X/**]: files inside such a directory, at any depth,
    are never listed. *)
Theorem no_listed_file_under_excluded_segment listing inc exc X p :
  has_char "*" X = false ->
  has_char "/" X = false ->
  In ("**/" +:+ X +:+ "/**") (default default_exclude_patterns exc) ->
  In p (list_files listing inc exc) ->
  ~ In X (split "/" p).
Proof.
  intros Hstar Hslash Hpat Hp HX.
  apply listed_passes in Hp. unfold yields in Hp.
  apply andb_true_iff in Hp as [_ Hex]. apply negb_true_iff in Hex.
  pose proof (should_exclude_false_in _ _ _ Hex Hpat) as Hc.
  rewrite (strip_globs_segment X Hstar) in Hc.
  apply (contains_segment X Hslash) in HX. by rewrite HX in Hc.
Qed.

Lemma split_chars sep s x c :
  In x (split sep s) -> has_char c x = true -> has_char c s = true.
Proof.
  revert x. induction s as [| a s IH]; intros x; simpl.
  - intros [<- | []]. done.
  - destruct (eqc a sep) eqn:Ha.
    + intros [<- | Hx] Hc; [done |]. rewrite (IH x Hx Hc). apply orb_true_r.
    + rewrite (split_uncons sep s). intros [<- | Hx] Hc.
      * simpl in Hc. apply orb_true_iff in Hc as [Hc | Hc]; [by rewrite Hc |].
        rewrite (IH (List.hd EmptyString (split sep s))); [apply orb_true_r | | exact Hc].
        rewrite (split_uncons sep s). by left.
      * rewrite (IH x); [apply orb_true_r | | exact Hc].
        rewrite (split_uncons sep s). by right.
Qed.

(** X19. The exclude patterns [**/*.min.js] and [**/*.min.css], which
    [index_repository] passes by default, exclude no path free of stars:
    after the globs are stripped they only match a component literally
    named [*.min.js] or [*.min.css]. *)
Theorem min_patterns_exclude_nothing path :
  has_char "*" path = false ->
  should_exclude path ["**/*.min.js"; "**/*.min.css"] = false.
Proof.
  intros Hstar. unfold should_exclude. cbn [existsb].
  assert (Hno : forall X, has_char "/" X = false -> has_char "*" X = true ->
                          contains ("/" +:+ X +:+ "/") ("/" +:+ path +:+ "/") = false).
  { intros X Hslash HX. destruct (contains _ _) eqn:Hc; [| done].
    apply (contains_segment X Hslash) in Hc.
    by rewrite (split_chars _ _ _ _ Hc HX) in Hstar. }
  change (strip_globs "**/*.min.js") with "*.min.js".
  change (strip_globs "**/*.min.css") with "*.min.css".
  by rewrite !Hno.
Qed.

End WalkerFacts.

(** * Branch names and file paths *)

Section TextFacts.

Import PyStr PyText.

Local Arguments eqc : simpl never.

Lemma squeeze_cons c a s :
  squeeze c (String a s)
  = if eqc a c
    then match s with
         | String b _ => if eqc b c then squeeze c s else String a (squeeze c s)
         | EmptyString => String a EmptyString
         end
    else String a (squeeze c s).
Proof. reflexivity. Qed.

Lemma squeeze_head c a s : exists t, squeeze c (String a s) = String a t.
Proof.
  revert a. induction s as [| b s IH]; intros a; rewrite squeeze_cons.
  - destruct (eqc a c); by eexists.
  - destruct (eqc a c) eqn:Ha; [| by eexists].
    destruct (eqc b c) eqn:Hb; [| by eexists].
    apply eqc_true in Ha, Hb. subst a b. apply IH.
Qed.

Lemma squeeze_no_pair c s : no_pair c (squeeze c s) = true.
Proof.
  induction s as [| a s IH]; [done |]. rewrite squeeze_cons.
  destruct s as [| b s]; [by destruct (eqc a c) |].
  destruct (squeeze_head c b s) as [t Ht]. rewrite Ht in *.
  destruct (eqc a c) eqn:Ha; [destruct (eqc b c) eqn:Hb |]; try exact IH;
    cbn [no_pair]; cbn [no_pair] in IH; rewrite IH, ?Ha, ?Hb; by rewrite ?andb_false_r.
Qed.

Lemma squeeze_id c s : no_pair c s = true -> squeeze c s = s.
Proof.
  induction s as [| a s IH]; [done |]. cbn [no_pair].
  intros [Hp Hs]%andb_true_iff. specialize (IH Hs). rewrite squeeze_cons, IH.
  destruct s as [| b s]; [by destruct (eqc a c) |].
  destruct (eqc a c); [| done]. by destruct (eqc b c).
Qed.

Lemma squeeze_all ok c s : all_chars ok s = true -> all_chars ok (squeeze c s) = true.
Proof.
  induction s as [| a s IH]; [done |]. cbn [all_chars].
  intros [Ha Hs]%andb_true_iff. specialize (IH Hs). rewrite squeeze_cons.
  destruct s as [| b s]; [destruct (eqc a c); simpl; by rewrite Ha |].
  destruct (eqc a c); [destruct (eqc b c) |]; cbn [all_chars]; rewrite ?Ha; exact IH.
Qed.

Lemma lstrip_all ok d s : all_chars ok s = true -> all_chars ok (lstrip d s) = true.
Proof.
  induction s as [| a s IH]; [done |]. simpl. intros Hs.
  destruct (d a); [| exact Hs]. apply IH. by apply andb_true_iff in Hs as [_ Hs].
Qed.

Lemma rstrip_all ok d s : all_chars ok s = true -> all_chars ok (rstrip d s) = true.
Proof.
  induction s as [| a s IH]; [done |]. simpl.
  intros [Ha Hs]%andb_true_iff. specialize (IH Hs).
  destruct (rstrip d s) as [| b r]; [destruct (d a); simpl; by rewrite ?Ha |].
  cbn [all_chars] in IH |- *. by rewrite Ha, IH.
Qed.

Lemma no_pair_tail c a s : no_pair c (String a s) = true -> no_pair c s = true.
Proof. cbn [no_pair]. by intros [_ Hs]%andb_true_iff. Qed.

Lemma lstrip_no_pair c d s : no_pair c s = true -> no_pair c (lstrip d s) = true.
Proof.
  induction s as [| a s IH]; [done |]. intros Hs. simpl.
  destruct (d a); [| exact Hs]. apply IH. by apply no_pair_tail in Hs.
Qed.

Lemma rstrip_head d s b r :
  rstrip d s = String b r -> exists s', s = String b s'.
Proof.
  destruct s as [| a s]; [done |]. simpl.
  destruct (rstrip d s); [destruct (d a) |]; intros [= <- _]; by eexists.
Qed.

Lemma rstrip_no_pair c d s : no_pair c s = true -> no_pair c (rstrip d s) = true.
Proof.
  induction s as [| a s IH]; [done |]. intros Hs.
  pose proof (no_pair_tail _ _ _ Hs) as Hs'. specialize (IH Hs'). simpl.
  destruct (rstrip d s) as [| b r] eqn:Hr; [by destruct (d a) |].
  destruct (rstrip_head _ _ _ _ Hr) as [s' ->].
  cbn [no_pair] in *. apply andb_true_iff in Hs as [Hp _]. by rewrite Hp, IH.
Qed.

Lemma no_pair_contains c s :
  contains (String c (String c EmptyString)) s = negb (no_pair c s).
Proof.
  induction s as [| a s IH]; [done |].
  rewrite contains_here, IH, startswith_cons. cbn [no_pair].
  destruct s as [| b s].
  - simpl. by rewrite andb_false_r.
  - rewrite startswith_cons, startswith_nil, andb_true_r.
    rewrite (eqc_comm c a), (eqc_comm c b).
    by destruct (eqc a c), (eqc b c).
Qed.

Lemma rev_cons a s : String.rev (String a s) = String.rev s +:+ String a EmptyString.
Proof.
  change (String a s) with (String a EmptyString +:+ s). by rewrite rev_append.
Qed.

Lemma rev_cons_nonempty a s : exists x r, String.rev (String a s) = String x r.
Proof.
  rewrite rev_cons. destruct (String.rev s) as [| x r]; by eexists _, _.
Qed.

Lemma last_char_rev c s :
  startswith (String c EmptyString) (String.rev s)
  = match last_char s with Some l => eqc c l | None => false end.
Proof.
  induction s as [| a s IH]; [done |].
  rewrite rev_cons. cbn [last_char].
  destruct s as [| b s].
  - by rewrite append_nil, startswith_cons, startswith_nil, andb_true_r.
  - destruct (rev_cons_nonempty b s) as (x & r & Hr). rewrite Hr in *.
    rewrite append_cons, startswith_cons, startswith_nil, andb_true_r.
    rewrite startswith_cons, startswith_nil, andb_true_r in IH. rewrite IH.
    cbn [last_char]. by destruct (last_char s).
Qed.

Lemma rstrip_last d s :
  match last_char (rstrip d s) with Some l => d l = false | None => True end.
Proof.
  induction s as [| a s IH]; [done |]. simpl.
  destruct (rstrip d s) as [| b r] eqn:Hr.
  - destruct (d a) eqn:Ha; simpl; done.
  - cbn [last_char] in *. by destruct (last_char r).
Qed.

Lemma rstrip_id d s :
  match last_char s with Some l => d l = false | None => True end -> rstrip d s = s.
Proof.
  induction s as [| a s IH]; [done |]. cbn [last_char]. intros Hl. simpl.
  destruct s as [| b s].
  - simpl in *. by rewrite Hl.
  - assert (Hsome : exists l, last_char (String b s) = Some l).
    { simpl. destruct (last_char s); by eexists. }
    destruct Hsome as [l Hsome]. rewrite Hsome in Hl.
    rewrite IH by (by rewrite Hsome). done.
Qed.

Lemma lstrip_first d s :
  match lstrip d s with String a _ => d a = false | EmptyString => True end.
Proof.
  induction s as [| a s IH]; [done |]. simpl. by destruct (d a) eqn:Ha.
Qed.

Lemma lstrip_id d s :
  match s with String a _ => d a = false | EmptyString => True end -> lstrip d s = s.
Proof. destruct s as [| a s]; [done |]. simpl. by intros ->. Qed.

Lemma rstrip_first d s :
  match s with String a _ => d a = false | EmptyString => True end ->
  match rstrip d s with String a _ => d a = false | EmptyString => True end.
Proof.
  destruct s as [| a s]; [done |]. simpl. intros Ha.
  destruct (rstrip d s); [by rewrite Ha |]. done.
Qed.

Lemma keep_chars_all ok s : all_chars ok (keep_chars ok s) = true.
Proof.
  induction s as [| a s IH]; [done |]. simpl.
  destruct (ok a) eqn:Ha; [| done]. simpl. by rewrite Ha.
Qed.

Lemma keep_chars_id ok s : all_chars ok s = true -> keep_chars ok s = s.
Proof.
  induction s as [| a s IH]; [done |]. simpl.
  intros [Ha Hs]%andb_true_iff. by rewrite Ha, IH.
Qed.

End TextFacts.

Section SanitizeFacts.

Import PyStr PyText GitHubService CodeGenerator.

Local Arguments eqc : simpl never.

Lemma slug_after_replace c :
  slug_char (if branch_char (lower_char c) then lower_char c else "-"%char) = true.
Proof. destruct c as [[] [] [] [] [] [] [] []]; reflexivity. Qed.

Lemma slug_fixed c :
  slug_char c = true -> lower_char c = c /\ branch_char c = true.
Proof. destruct c as [[] [] [] [] [] [] [] []]; intros Hc; try discriminate Hc; by split. Qed.

Lemma replace_lower_slug s :
  all_chars slug_char (replace_outside branch_char "-" (lower s)) = true.
Proof.
  induction s as [| c s IH]; [done |]. simpl. by rewrite slug_after_replace, IH.
Qed.

Lemma replace_lower_id s :
  all_chars slug_char s = true -> replace_outside branch_char "-" (lower s) = s.
Proof.
  induction s as [| c s IH]; [done |]. simpl.
  intros [Hc Hs]%andb_true_iff. destruct (slug_fixed c Hc) as [Hl Hb].
  by rewrite Hl, Hb, IH.
Qed.

(** What [sanitize_branch_name] establishes, in the form its stages keep. *)
Lemma sanitize_shape name :
  let r := sanitize_branch_name name in
  all_chars slug_char r = true
  /\ no_pair "-" r = true
  /\ match r with String a _ => dash a = false | EmptyString => True end
  /\ match last_char r with Some l => dash l = false | None => True end.
Proof.
  unfold sanitize_branch_name, strip. fold dash. simpl.
  split; [| split; [| split]].
  - apply rstrip_all, lstrip_all, squeeze_all, replace_lower_slug.
  - apply rstrip_no_pair, lstrip_no_pair, squeeze_no_pair.
  - apply rstrip_first, lstrip_first.
  - apply rstrip_last.
Qed.

(** X20. A sanitized branch name holds only lower-case letters, digits and
    hyphens, has no two hyphens in a row, and neither starts nor ends with a
    hyphen. *)
Theorem sanitized_branch_name_is_clean name :
  let r := sanitize_branch_name name in
  all_chars slug_char r = true
  /\ contains "--" r = false
  /\ startswith "-" r = false
  /\ endswith "-" r = false.
Proof.
  intros r. destruct (sanitize_shape name) as (Hall & Hpair & Hfirst & Hlast).
  fold r in Hall, Hpair, Hfirst, Hlast.
  split; [exact Hall |]. split; [| split].
  - change "--" with (String "-"%char (String "-"%char EmptyString)).
    by rewrite no_pair_contains, Hpair.
  - destruct r as [| a r']; [done |].
    rewrite startswith_cons, startswith_nil, andb_true_r, eqc_comm. exact Hfirst.
  - unfold endswith. change (String.rev "-") with "-".
    rewrite last_char_rev. destruct (last_char r) as [l |]; [| done].
    rewrite eqc_comm. exact Hlast.
Qed.

(** X21. Sanitizing a sanitized branch name changes nothing. *)
Theorem sanitize_branch_name_idempotent name :
  sanitize_branch_name (sanitize_branch_name name) = sanitize_branch_name name.
Proof.
  destruct (sanitize_shape name) as (Hall & Hpair & Hfirst & Hlast).
  set (r := sanitize_branch_name name) in *.
  unfold sanitize_branch_name at 1. unfold strip. fold dash. simpl.
  rewrite (replace_lower_id r Hall), (squeeze_id _ r Hpair).
  rewrite (lstrip_id dash r Hfirst). by apply rstrip_id.
Qed.

Lemma replace_backslash_cons c s :
  replace "\" "/" (String c s)
  = String (if eqc c "\" then "/"%char else c) (replace "\" "/" s).
Proof.
  unfold replace. rewrite replace_go_here, startswith_cons, startswith_nil, andb_true_r.
  rewrite (eqc_comm "\" c). by destruct (eqc c "\").
Qed.

Lemma keep_path_cons c s :
  keep_path_chars (String c s)
  = if path_char c || eqc c "\" then String (if eqc c "\" then "/"%char else c) (keep_path_chars s)
    else keep_path_chars s.
Proof.
  unfold keep_path_chars. rewrite replace_backslash_cons. simpl.
  destruct (eqc c "\") eqn:Hc; [by rewrite orb_true_r |]. by rewrite orb_false_r.
Qed.

Lemma keep_path_lstrip d s :
  (forall c, d c = true -> path_char c || eqc c "\" = false) ->
  keep_path_chars (lstrip d s) = keep_path_chars s.
Proof.
  intros Hd. induction s as [| c s IH]; [done |]. simpl.
  destruct (d c) eqn:Hc; [| done]. by rewrite keep_path_cons, (Hd c Hc).
Qed.

Lemma keep_path_rstrip d s :
  (forall c, d c = true -> path_char c || eqc c "\" = false) ->
  keep_path_chars (rstrip d s) = keep_path_chars s.
Proof.
  intros Hd. induction s as [| c s IH]; [done |]. simpl.
  destruct (rstrip d s) as [| b r] eqn:Hr.
  - destruct (d c) eqn:Hc.
    + by rewrite keep_path_cons, (Hd c Hc), <- IH.
    + by rewrite !keep_path_cons, <- IH.
  - by rewrite !(keep_path_cons c), IH.
Qed.

Lemma space_not_path c : is_space c = true -> path_char c || eqc c "\" = false.
Proof. destruct c as [[] [] [] [] [] [] [] []]; intros Hc; try discriminate Hc; reflexivity. Qed.

Lemma backtick_not_path c : eqc c "`" = true -> path_char c || eqc c "\" = false.
Proof. intros ->%eqc_true. reflexivity. Qed.

Lemma clean_file_path_alt path : clean_file_path path = keep_path_chars path.
Proof.
  unfold clean_file_path, strip. fold (keep_path_chars (rstrip is_space
    (lstrip is_space (rstrip (fun c => eqc c "`") (lstrip (fun c => eqc c "`") path))))).
  rewrite (keep_path_rstrip _ _ space_not_path), (keep_path_lstrip _ _ space_not_path).
  by rewrite (keep_path_rstrip _ _ backtick_not_path), (keep_path_lstrip _ _ backtick_not_path).
Qed.

Lemma path_chars_no_backslash s :
  all_chars path_char s = true -> replace "\" "/" s = s.
Proof.
  induction s as [| c s IH]; [done |]. simpl. intros [Hc Hs]%andb_true_iff.
  rewrite replace_backslash_cons, (IH Hs).
  destruct (eqc c "\") eqn:Hb; [| done]. apply eqc_true in Hb. by subst c.
Qed.

(** X22. A cleaned file path holds only letters, digits and the characters
    [/ . _ -]; cleaning it again changes nothing; and the two [strip] calls
    add nothing to the final character filter. *)
Theorem clean_file_path_is_clean path :
  all_chars path_char (clean_file_path path) = true
  /\ clean_file_path (clean_file_path path) = clean_file_path path
  /\ clean_file_path path = keep_chars path_char (replace "\" "/" path).
Proof.
  assert (Hall : all_chars path_char (clean_file_path path) = true).
  { unfold clean_file_path. apply keep_chars_all. }
  split; [exact Hall |]. split; [| apply clean_file_path_alt].
  rewrite (clean_file_path_alt (clean_file_path path)). unfold keep_path_chars.
  rewrite (path_chars_no_backslash _ Hall). by apply keep_chars_id.
Qed.

End SanitizeFacts.

(** * Languages and symbols *)

Section LanguageFacts.

Import CodeParser CodebaseIndex.


End LanguageFacts.

Section SymbolFacts.

Import PyStr CodeParser.

Local Arguments eqc : simpl never.

Lemma has_char_append c a b : has_char c (a +:+ b) = has_char c a || has_char c b.
Proof.
  induction a as [| x a IH]; [done |]. rewrite append_cons. simpl.
  by rewrite IH, orb_assoc.
Qed.

Lemma has_char_rev c s : has_char c (String.rev s) = has_char c s.
Proof.
  induction s as [| a s IH]; [done |].
  change (String a s) with (String a EmptyString +:+ s) at 1.
  rewrite rev_append, has_char_append, IH. simpl.
  by rewrite orb_false_r, orb_comm.
Qed.

Lemma startswith_has_char c p s :
  startswith p s = true -> has_char c p = true -> has_char c s = true.
Proof.
  revert s. induction p as [| a p IH]; intros s; [done |].
  destruct s as [| b s]; [done |]. rewrite startswith_cons.
  intros [Hab Hs]%andb_true_iff. apply eqc_true in Hab as <-. simpl.
  intros [Ha | Hp]%orb_true_iff; [by rewrite Ha |].
  rewrite (IH _ Hs Hp). apply orb_true_r.
Qed.

Lemma split_two sep s :
  has_char sep s = true -> exists x y rest, split sep s = x :: y :: rest.
Proof.
  induction s as [| c s IH]; [done |]. simpl.
  destruct (eqc c sep) eqn:Hc.
  - intros _. rewrite (split_uncons sep s). by eexists _, _, _.
  - simpl. intros Hs. destruct (IH Hs) as (x & y & rest & ->). by eexists _, _, _.
Qed.

Lemma definition_tag_has_type tag :
  endswith ".definition" tag = true -> exists type, second (split "." tag) = Ok type.
Proof.
  unfold endswith. intros He.
  assert (Hdot : has_char "." tag = true).
  { rewrite <- has_char_rev. by apply (startswith_has_char _ _ _ He). }
  destruct (split_two _ _ Hdot) as (x & y & rest & ->). by exists y.
Qed.

(** X24. The loop of [get_symbols] never fails on [tag.split('.')[1]]: it
    returns one symbol for each capture whose tag ends in [.definition], in
    the order of the captures, named by the text of the node. *)
Theorem symbols_of_captures_total captures :
  exists symbols,
    symbols_of_captures captures = Ok symbols
    /\ List.map symbol_name symbols
       = List.map (fun c => text (fst c))
                  (List.filter (fun c => endswith ".definition" (snd c)) captures).
Proof.
  induction captures as [| [node tag] rest (symbols & Hs & Hn)]; [by exists [] |].
  simpl. destruct (endswith ".definition" tag) eqn:He; [| by exists symbols].
  destruct (definition_tag_has_type tag He) as [type ->]. rewrite Hs.
  eexists. split; [done |]. simpl. by rewrite Hn.
Qed.

Lemma startswith_append_same p s : startswith p (p +:+ s) = true.
Proof.
  induction p as [| a p IH]; [by rewrite startswith_nil |].
  by rewrite append_cons, startswith_cons, eqc_refl, IH.
Qed.

Lemma endswith_append_same a p : endswith p (a +:+ p) = true.
Proof. unfold endswith. rewrite rev_append. apply startswith_append_same. Qed.

Lemma split_at_first sep a b :
  has_char sep a = false ->
  split sep (a +:+ String sep b) = a :: split sep b.
Proof.
  induction a as [| c a IH]; [intros _; by rewrite append_nil, split_sep |].
  cbn [has_char]. intros [Hc Ha]%orb_false_iff.
  rewrite append_cons, (split_other _ _ _ Hc), (IH Ha). done.
Qed.

(** X25. For a tag of two parts, [kind.definition], the type recorded for the
    symbol is the word [definition], not the kind: the type is the second
    part of the tag, not the first. *)
Theorem two_part_tag_type node kind :
  has_char "." kind = false ->
  exists symbol,
    symbols_of_captures [(node, kind +:+ ".definition")] = Ok [symbol]
    /\ symbol_type symbol = "definition"
    /\ symbol_name symbol = text node.
Proof.
  intros Hk. simpl. rewrite endswith_append_same.
  change (kind +:+ ".definition") with (kind +:+ String "."%char "definition").
  rewrite (split_at_first _ _ _ Hk). simpl. by eexists.
Qed.

End SymbolFacts.

(** * Indexing runs and searches *)

Section CodebaseFacts.

Context {Vec : Type} `{CodebaseIndex.Collaborators Vec} `{Splitter}
        `{CodebaseUnderstanding.Repository}.

Import CodeParser CodebaseIndex GitHubService CodebaseUnderstanding.

Lemma zip_rows_from (batch : list Chunk) (vs : list Vec) r :
  In r (zip_rows batch vs) -> exists c v, In c batch /\ r = row_of c v.
Proof.
  revert vs. induction batch as [| c batch IH]; intros [| v vs] Hr; try done.
  destruct Hr as [<- | Hr].
  - exists c, v. split; [by left | done].
  - destruct (IH vs Hr) as (c' & v' & Hc & ->). exists c', v'. split; [by right | done].
Qed.

Lemma embed_batches_from (bs : list (list Chunk)) r :
  In r (fst (embed_batches bs)) -> exists c v, In c (concat bs) /\ r = row_of c v.
Proof.
  induction bs as [| b bs IH]; [done |]. simpl.
  unfold embed_batch at 1. destruct (embed_batches bs) as [rows' evs']. simpl in IH.
  destruct (embeddings_provider _) as [vs | e]; simpl; intros Hr.
  - apply in_app_or in Hr as [Hr | Hr].
    + destruct (zip_rows_from _ _ _ Hr) as (c & v & Hc & ->).
      exists c, v. split; [apply in_or_app; by left | done].
    + destruct (IH Hr) as (c & v & Hc & ->).
      exists c, v. split; [apply in_or_app; by right | done].
  - destruct (IH Hr) as (c & v & Hc & ->).
    exists c, v. split; [apply in_or_app; by right | done].
Qed.

Lemma chunk_code_filepath file_path file_content c :
  In c (chunk_code file_path file_content) -> filepath c = file_path.
Proof.
  intros Hc. destruct (chunk_code_shape _ _ _ Hc) as [-> | (p & s & -> & _)]; done.
Qed.

(** X26. Every row a run of [index_repository] adds carries the repository's
    full name and the branch of the run, and belongs to a file the walk
    yielded; the rows held before stay in place. *)
Theorem index_repository_tags_rows (db : Db Vec) branch_name inc exc :
  let db' := fst (index_repository db branch_name inc exc) in
  exists new_rows,
    existing_rows db' = existing_rows db ++ new_rows
    /\ Forall (fun r => row_repo r = full_name
                        /\ row_branch r = default default_branch branch_name
                        /\ In (row_filepath r) (indexed_files inc exc)) new_rows.
Proof.
  intros db'. subst db'. unfold index_repository.
  set (b := default default_branch branch_name).
  set (chunks := List.flat_map (chunks_of_file b) (indexed_files inc exc)).
  assert (Htag : forall c, In c chunks ->
                           repo c = full_name /\ branch c = b
                           /\ In (filepath c) (indexed_files inc exc)).
  { intros c Hc. apply in_flat_map in Hc as (p & Hp & Hc).
    unfold chunks_of_file in Hc.
    destruct (get_file_content p) as [[| x file_content] |];
      [destruct Hc | | destruct Hc].
    apply in_map_iff in Hc as (c0 & <- & Hc0). cbn [tag_chunk repo branch filepath].
    rewrite (chunk_code_filepath _ _ _ Hc0). by repeat split. }
  assert (Hstore : exists new_rows,
             existing_rows (fst (store db chunks)) = existing_rows db ++ new_rows
             /\ Forall (fun r => exists c v, In c chunks /\ r = row_of c v) new_rows).
  { pose proof (store_rows db chunks) as Hs. simpl in Hs.
    destruct (snd (store db chunks)) as [[] | e].
    - eexists; split; [exact Hs |]. apply Forall_forall. intros r Hr.
      apply list_elem_of_In, embed_batches_from in Hr.
      by rewrite batches_concat in Hr.
    - exists []. rewrite app_nil_r. split; [by destruct Hs | constructor]. }
  destruct Hstore as (new_rows & Hrows & Hfrom).
  exists new_rows. split.
  - destruct chunks; [| exact Hrows]. simpl in Hrows. exact Hrows.
  - eapply Forall_impl; [exact Hfrom |]. intros r (c & v & Hc & ->). simpl.
    by apply Htag.
Qed.

Lemma full_name_truthy : truthy (Some full_name) = true.
Proof.
  unfold full_name. destruct owner_login; [by rewrite append_nil | by rewrite append_cons].
Qed.

(** X27. The filter of [search_similar_code] always starts with the condition
    on the repository's full name, followed by the default branch when it is
    not empty; the empty directory of its tag adds nothing, so the only
    directory condition is the one the caller gives. *)
Theorem search_similar_code_filter fd lang :
  filter_conditions search_tags fd lang
  = RepoIs full_name
      :: (if truthy (Some default_branch) then [BranchIs default_branch] else [])
      ++ (if truthy fd then [PathUnder (default "" fd)] else [])
      ++ (if truthy lang then [LanguageIs (default "" lang)] else []).
Proof.
  unfold search_tags.
  set (tag := ({[ "directory" := ""; "branch" := default_branch; "repo" := full_name ]}
                 : gmap string string)).
  assert (Hd : tag !! "directory" = Some "") by apply lookup_insert_eq.
  assert (Hb : tag !! "branch" = Some default_branch).
  { subst tag. rewrite lookup_insert_ne by done. apply lookup_insert_eq. }
  assert (Hr : tag !! "repo" = Some full_name).
  { subst tag. rewrite !lookup_insert_ne by done. apply lookup_singleton_eq. }
  unfold filter_conditions. cbn [dir_filters].
  rewrite Hd, Hb, Hr, full_name_truthy. simpl. by destruct (truthy fd).
Qed.

Lemma context_items_of_ranged chunks :
  Forall (fun c => exists r, range c = Some r) chunks ->
  exists items, context_items chunks = Ok items
                /\ List.map name items = List.map filepath chunks.
Proof.
  induction 1 as [| c chunks [r Hr] _ (items & Hi & Hn)]; [by exists [] |].
  simpl. unfold context_item. rewrite Hr, Hi. eexists. split; [done |]. simpl. by rewrite Hn.
Qed.

(** X28. [search_similar_code] never fails on the range of a chunk: whenever
    [retrieve] returns chunks, it returns one context item per chunk, in the
    same order and named by the chunk's file path. *)
Theorem search_similar_code_total (db : Db Vec) query n_results fd lang chunks :
  snd (retrieve db query n_results search_tags fd lang) = Ok chunks ->
  exists items,
    snd (search_similar_code db query n_results fd lang) = Ok items
    /\ List.map name items = List.map filepath chunks.
Proof.
  intros Hret. unfold search_similar_code.
  assert (Hranged : Forall (fun c => exists r, range c = Some r) chunks).
  { revert Hret. unfold retrieve. destruct (get_table db) as [db1 table].
    destruct (embeddings_provider [query]) as [[| q qs] | e]; simpl; try done.
    destruct (search _ _ _ _) as [[| r rs] | e]; simpl; try done.
    - intros [= <-]. constructor.
    - intros [= <-]. constructor; [by eexists |].
      apply Forall_forall. intros c Hc.
      apply list_elem_of_In, in_map_iff in Hc as (row & <- & _). by eexists. }
  destruct (retrieve db query n_results search_tags fd lang) as [db' found].
  simpl in Hret. subst found. simpl. by apply context_items_of_ranged.
Qed.

End CodebaseFacts.

(** * Applying a generated change *)

Section SpliceFacts.

Import CodeGenerator.

(** X29. A modification with a non-empty original and a line number other
    than 0 keeps every line of the original in order and puts the lines of
    the snippet between two of them: a positive number counts lines from the
    start, a negative one from the end, and a number past either end puts
    the snippet at that end. *)
Theorem modify_splices_lines change x original k :
  String.eqb (change_type change) "create" = false ->
  original_content change = Some (String x original) ->
  insert_after_line change = Some k ->
  k <> 0 ->
  exists before after,
    PyStr.splitlines (String x original) = before ++ after
    /\ applied_content change
       = PyStr.join (String "010"%char EmptyString)
                    (before ++ PyStr.splitlines (snippet change) ++ after)
    /\ length before = slice_point k (length (PyStr.splitlines (String x original)))
    /\ (0 < k -> Z.of_nat (length before)
                 = Z.min k (PyStr.len (PyStr.splitlines (String x original))))
    /\ (k < 0 -> Z.of_nat (length after)
                 = Z.min (- k) (PyStr.len (PyStr.splitlines (String x original)))).
Proof.
  intros Hty Ho Hk Hnz. unfold applied_content. rewrite Hty, Ho, Hk.
  apply Z.eqb_neq in Hnz. rewrite Hnz.
  set (lines := PyStr.splitlines (String x original)).
  set (i := slice_point k (length lines)).
  assert (Hi : (i <= length lines)%nat).
  { subst i. unfold slice_point. destruct (k <? 0) eqn:Hneg; [| lia].
    apply Z.ltb_lt in Hneg. lia. }
  exists (take i lines), (drop i lines).
  split; [by rewrite take_drop |]. split; [done |].
  split; [rewrite length_take; lia |]. unfold PyStr.len. split.
  - intros Hpos. rewrite length_take. subst i. unfold slice_point.
    assert (Hkn : (k <? 0) = false) by (apply Z.ltb_ge; lia). rewrite Hkn. lia.
  - intros Hneg. rewrite length_drop. subst i. unfold slice_point.
    assert (Hkn : (k <? 0) = true) by (apply Z.ltb_lt; lia). rewrite Hkn. lia.
Qed.

(** X30. A modification whose line number is 0 or missing, or whose original
    is missing or empty, is not spliced: the content of the file becomes the
    snippet alone. *)
Theorem modify_without_anchor_replaces change :
  insert_after_line change = Some 0
  \/ insert_after_line change = None
  \/ original_content change = None
  \/ original_content change = Some EmptyString ->
  applied_content change = snippet change.
Proof.
  unfold applied_content. destruct (String.eqb _ _); [done |].
  intros [-> | [-> | [-> | ->]]]; try done.
  - by destruct (original_content change) as [[| ? ?] |].
  - by destruct (original_content change) as [[| ? ?] |].
Qed.

End SpliceFacts.

(** * The further properties at work *)

Lemma store_one_row_per_chunk_witness :
  let C := Demo.lance Demo.faithful_provider in
  (forall texts, @CodebaseIndex.embeddings_provider _ C texts
                 = Ok (List.map Demo.embed_one texts))
  /\ CodebaseIndex.existing_rows
       (fst (@CodebaseIndex.store _ C Demo.db3 [Demo.chunk_at "d.py" "abcd"]))
     = CodebaseIndex.existing_rows Demo.db3
       ++ [CodebaseIndex.row_of (Demo.chunk_at "d.py" "abcd") 4].
Proof.
  split; [reflexivity |].
  exact (@store_one_row_per_chunk Z (Demo.lance Demo.faithful_provider) Demo.embed_one
           Demo.db3 [Demo.chunk_at "d.py" "abcd"]
           (fun _ => eq_refl) (fun _ => eq_refl)).
Defined.

Lemma store_twice_duplicates_rows_witness :
  let C := Demo.lance Demo.faithful_provider in
  let chunks := [Demo.chunk_at "d.py" "abcd"] in
  CodebaseIndex.existing_rows
    (fst (@CodebaseIndex.store _ C (fst (@CodebaseIndex.store _ C Demo.empty_db chunks)) chunks))
  = [CodebaseIndex.row_of (Demo.chunk_at "d.py" "abcd") 4;
     CodebaseIndex.row_of (Demo.chunk_at "d.py" "abcd") 4].
Proof.
  exact (@store_twice_duplicates_rows Z (Demo.lance Demo.faithful_provider) Demo.embed_one
           Demo.empty_db [Demo.chunk_at "d.py" "abcd"]
           (fun _ => eq_refl) (fun _ => eq_refl)).
Defined.


Lemma chunk_row_round_trip_witness :
  let c := CodeParser.placed "src/app.py" "y" 2 1 in
  In c (@CodeParser.chunk_code line_splitter "src/app.py" ("x" +:+ LF +:+ "y"))
  /\ CodebaseIndex.chunk_of
       (CodebaseIndex.row_of
          {| filepath := filepath c; content := content c; range := range c;
             repo := "octo/demo"; branch := "main" |} 7)
     = {| filepath := filepath c; content := content c; range := range c;
          repo := "octo/demo"; branch := "main" |}.
Proof.
  assert (Hin : In (CodeParser.placed "src/app.py" "y" 2 1)
                   (@CodeParser.chunk_code line_splitter "src/app.py" ("x" +:+ LF +:+ "y"))).
  { vm_compute. right. left. reflexivity. }
  split; [exact Hin |].
  exact (@chunk_row_round_trip Z line_splitter "src/app.py" ("x" +:+ LF +:+ "y")
           (CodeParser.placed "src/app.py" "y" 2 1) "octo/demo" "main" 7 Hin).
Defined.

Lemma retrieved_chunks_have_ranges_witness :
  let C := Demo.lance Demo.faithful_provider in
  let chunks := List.map CodebaseIndex.chunk_of [Demo.row_with "c.py" 3; Demo.row_with "a.py" 1] in
  snd (@CodebaseIndex.retrieve _ C Demo.db3 "abcd" 2 [] None None) = Ok chunks
  /\ Forall (fun c => exists r, range c = Some r
                                /\ character (start r) = 0 /\ character (stop r) = 0) chunks.
Proof.
  split; [reflexivity |].
  apply (@retrieved_chunks_have_ranges Z (Demo.lance Demo.faithful_provider)
           Demo.db3 "abcd" 2 [] None None).
  reflexivity.
Defined.

Lemma filter_directory_overrides_tags_witness :
  let tags : list (gmap string string) := [ {[ "directory" := "lib" ]} ] in
  truthy (Some "src/") = true
  /\ CodebaseIndex.filter_conditions tags (Some "src/") None
     = CodebaseIndex.filter_conditions (List.map (delete "directory") tags) (Some "src/") None.
Proof.
  split; [reflexivity |].
  apply (filter_directory_overrides_tags [ {[ "directory" := "lib" ]} ] (Some "src/") None).
  reflexivity.
Defined.

Lemma later_tags_only_give_directories_witness :
  let first : gmap string string := {[ "repo" := "octo/demo" ]} in
  let other : gmap string string := {[ "directory" := "lib"; "repo" := "evil/other" ]} in
  let bare : gmap string string := {[ "directory" := "lib" ]} in
  other !! "directory" = bare !! "directory"
  /\ CodebaseIndex.filter_conditions [first; other] None None
     = CodebaseIndex.filter_conditions [first; bare] None None.
Proof.
  split; [reflexivity |].
  apply (later_tags_only_give_directories {[ "repo" := "octo/demo" ]}
           [ {[ "directory" := "lib"; "repo" := "evil/other" ]} ] [ {[ "directory" := "lib" ]} ]
           None None).
  constructor; [reflexivity | constructor].
Defined.

Lemma retrieve_needs_query_vector_witness :
  let C := Demo.lance Demo.silent_provider in
  @CodebaseIndex.embeddings_provider _ C ["abcd"] = Ok []
  /\ exists e, snd (@CodebaseIndex.retrieve _ C Demo.db3 "abcd" 2 [] None None) = Raise e.
Proof.
  split; [reflexivity |].
  apply (@retrieve_needs_query_vector Z (Demo.lance Demo.silent_provider)
           Demo.db3 "abcd" 2 [] None None).
  intros q qs. discriminate.
Defined.

Lemma include_glob_is_bare_suffix_witness :
  PyStr.has_char "." "py" = false
  /\ GitHubService.should_include "tools/copy" ["**/*." +:+ "py"] = true.
Proof.
  split; [reflexivity |].
  exact (eq_trans (include_glob_is_bare_suffix "tools/copy" "py" eq_refl) eq_refl).
Defined.

Lemma no_listed_file_under_excluded_segment_witness :
  In "main.py" (GitHubService.list_files Demo.tree None None)
  /\ ~ In "node_modules" (PyStr.split "/" "main.py").
Proof.
  assert (Hin : In "main.py" (GitHubService.list_files Demo.tree None None)).
  { left. reflexivity. }
  split; [exact Hin |].
  apply (no_listed_file_under_excluded_segment Demo.tree None None "node_modules" "main.py").
  - reflexivity.
  - reflexivity.
  - left. reflexivity.
  - exact Hin.
Defined.

Lemma min_patterns_exclude_nothing_witness :
  PyStr.has_char "*" "src/app.min.js" = false
  /\ GitHubService.should_exclude "src/app.min.js" ["**/*.min.js"; "**/*.min.css"] = false.
Proof.
  split; [reflexivity |].
  apply (min_patterns_exclude_nothing "src/app.min.js"). reflexivity.
Defined.


Lemma two_part_tag_type_witness :
  let node := {| CodeParser.text := "main"; CodeParser.start_point := (3, 0);
                 CodeParser.end_point := (9, 1) |} in
  PyStr.has_char "." "function" = false
  /\ exists symbol,
       CodeParser.symbols_of_captures [(node, "function" +:+ ".definition")] = Ok [symbol]
       /\ CodeParser.symbol_type symbol = "definition"
       /\ CodeParser.symbol_name symbol = CodeParser.text node.
Proof.
  split; [reflexivity |].
  apply (two_part_tag_type
           {| CodeParser.text := "main"; CodeParser.start_point := (3, 0);
              CodeParser.end_point := (9, 1) |} "function").
  reflexivity.
Defined.

Lemma search_similar_code_total_witness :
  let C := Demo.lance Demo.faithful_provider in
  snd (@CodebaseIndex.retrieve _ C Demo.db3 "abcd" 2
         (@CodebaseUnderstanding.search_tags Demo.repository) None None)
  = Ok (List.map CodebaseIndex.chunk_of [Demo.row_with "c.py" 3; Demo.row_with "a.py" 1])
  /\ exists items,
       snd (@CodebaseUnderstanding.search_similar_code _ C Demo.repository
              Demo.db3 "abcd" 2 None None) = Ok items
       /\ List.map CodebaseUnderstanding.name items = ["c.py"; "a.py"].
Proof.
  split; [reflexivity |].
  apply (@search_similar_code_total Z (Demo.lance Demo.faithful_provider) Demo.repository
           Demo.db3 "abcd" 2 None None
           (List.map CodebaseIndex.chunk_of [Demo.row_with "c.py" 3; Demo.row_with "a.py" 1])).
  reflexivity.
Defined.

Lemma modify_splices_lines_witness :
  let change := {| CodeGenerator.file := "a.py";
                   CodeGenerator.snippet := "new";
                   CodeGenerator.change_type := "modify";
                   CodeGenerator.original_content := Some ("one" +:+ LF +:+ "two");
                   CodeGenerator.insert_after_line := Some 1 |} in
  CodeGenerator.insert_after_line change = Some 1
  /\ exists before after,
       PyStr.splitlines ("one" +:+ LF +:+ "two") = before ++ after
       /\ CodeGenerator.applied_content change
          = PyStr.join LF (before ++ PyStr.splitlines "new" ++ after)
       /\ length before = 1%nat.
Proof.
  split; [reflexivity |].
  destruct (modify_splices_lines
              {| CodeGenerator.file := "a.py";
                 CodeGenerator.snippet := "new";
                 CodeGenerator.change_type := "modify";
                 CodeGenerator.original_content := Some ("one" +:+ LF +:+ "two");
                 CodeGenerator.insert_after_line := Some 1 |}
              "o"%char ("ne" +:+ LF +:+ "two") 1)
    as (before & after & Hsplit & Happ & Hlen & _).
  - reflexivity.
  - reflexivity.
  - reflexivity.
  - discriminate.
  - exists before, after. split; [exact Hsplit |]. split; [exact Happ | exact Hlen].
Defined.

Lemma modify_without_anchor_replaces_witness :
  let change := {| CodeGenerator.file := "a.py";
                   CodeGenerator.snippet := "import os";
                   CodeGenerator.change_type := "modify";
                   CodeGenerator.original_content := Some ("one" +:+ LF +:+ "two");
                   CodeGenerator.insert_after_line := Some 0 |} in
  CodeGenerator.insert_after_line change = Some 0
  /\ CodeGenerator.applied_content change = "import os".
Proof.
  split; [reflexivity |].
  apply (modify_without_anchor_replaces
           {| CodeGenerator.file := "a.py";
              CodeGenerator.snippet := "import os";
              CodeGenerator.change_type := "modify";
              CodeGenerator.original_content := Some ("one" +:+ LF +:+ "two");
              CodeGenerator.insert_after_line := Some 0 |}).
  left. reflexivity.
Defined.
